(** * Juno RAG chatbot: ingestion, deletion and retrieval pipeline

    A shallow embedding of [chroma_utils.py], [langchain_utils.py] and the
    upload endpoint of [main_simple.py].

    Python values are modelled as follows.
    - [str] is [string]; a character is a code point below 256, which is
      enough for the file names, separators and extensions the code
      inspects.  [len] is [String.length].
    - [int] is [Z].
    - a [dict] with string keys is a [gmap string _].
    - an exception is a value of [exn]; a computation that may raise and
      that may mutate the process-wide objects (vector store, sqlite
      tables, upload directory) is a function [World -> outcome A * World].
      The world that comes back with [Raise] is the world at the point where
      the exception was raised: Python undoes nothing.
    - [print] calls have no effect on any modelled value and are left out. *)

From Stdlib Require Import ZArith QArith Qabs Ascii String.
From stdpp Require Import base gmap strings list pretty.

Local Open Scope Z_scope.

(* ===================================================================== *)
(** ** Python string operations used by the code *)
(* ===================================================================== *)

Module PyStr.

(** [s[:n]] and [s[n:]] for [0 <= n]. *)
Fixpoint take (n : nat) (s : string) : string :=
  match n, s with
  | O, _ => ""
  | S _, EmptyString => ""
  | S n', String c s' => String c (take n' s')
  end.

Fixpoint drop (n : nat) (s : string) : string :=
  match n, s with
  | O, _ => s
  | S _, EmptyString => ""
  | S n', String _ s' => drop n' s'
  end.

(** [s[i:j]] for [0 <= i]. *)
Definition slice (i j : nat) (s : string) : string := take (j - i) (drop i s).

(** [c in s] for a one-character [c]. *)
Fixpoint occurs (c : ascii) (s : string) : bool :=
  match s with
  | EmptyString => false
  | String a s' => Ascii.eqb a c || occurs c s'
  end.

(** [s.rfind(c)] for a one-character [c]: the highest index of [c], or -1. *)
Fixpoint rfind (c : ascii) (s : string) : Z :=
  match s with
  | EmptyString => -1
  | String a s' =>
      let r := rfind c s' in
      if 0 <=? r then r + 1 else if Ascii.eqb a c then 0 else -1
  end.

(** [s.endswith(suffix)]. *)
Definition endswith (s suffix : string) : bool :=
  let n := String.length s in
  let m := String.length suffix in
  if (m <=? n)%nat then String.eqb (drop (n - m) s) suffix else false.

(** [c.lower()] on code points below 256: A-Z, and the Latin-1 capitals
    U+00C0..U+00DE except the multiplication sign U+00D7, move up by 32. *)
Definition lower_char (c : ascii) : ascii :=
  let n := N_of_ascii c in
  if ((65 <=? n) && (n <=? 90) ||
      (192 <=? n) && (n <=? 222) && negb (n =? 215))%N
  then ascii_of_N (n + 32) else c.

Fixpoint lower (s : string) : string :=
  match s with
  | EmptyString => ""
  | String c s' => String (lower_char c) (lower s')
  end.

(** [sep.join(parts)]. *)
Fixpoint join (sep : string) (parts : list string) : string :=
  match parts with
  | [] => ""
  | [p] => p
  | p :: ps => p +:+ sep +:+ join sep ps
  end.

(** The while loop of [genericpath._splitext]: it scans the [n] positions
    from [filenameIndex] on and reports whether one of them is not a dot. *)
Fixpoint splitext_scan (n : nat) (p : string) (filenameIndex : nat) : bool :=
  match n with
  | O => false
  | S n' =>
      if negb (String.eqb (slice filenameIndex (filenameIndex + 1) p) ".")
      then true
      else splitext_scan n' p (filenameIndex + 1)
  end.

(** [os.path.splitext(p)] of [posixpath]: separator "/", no alternative
    separator, extension separator ".". *)
Definition splitext (p : string) : string * string :=
  let sepIndex := rfind "/" p in
  let dotIndex := rfind "." p in
  if sepIndex <? dotIndex then
    let filenameIndex := sepIndex + 1 in
    if splitext_scan (Z.to_nat (dotIndex - filenameIndex)) p (Z.to_nat filenameIndex)
    then (take (Z.to_nat dotIndex) p, drop (Z.to_nat dotIndex) p)
    else (p, "")
  else (p, "").

End PyStr.

(* ===================================================================== *)
(** ** Exceptions and the state-and-exception monad *)
(* ===================================================================== *)

(** The exceptions of class [Exception] the code raises or receives. *)
Inductive exn : Type :=
| ValueError (msg : string)
| FileNotFoundError (path : string)
| HTTPException (status_code : Z) (detail : string)
| LibraryError (msg : string).   (* raised inside a third-party call *)

(** [str(e)]. *)
Definition exn_str (e : exn) : string :=
  match e with
  | ValueError msg => msg
  | FileNotFoundError path => "[Errno 2] No such file or directory: '" +:+ path +:+ "'"
  | HTTPException status_code detail => pretty status_code +:+ ": " +:+ detail
  | LibraryError msg => msg
  end.

Inductive outcome (A : Type) : Type :=
| Return (a : A)
| Raise (e : exn).
Arguments Return {A} a.
Arguments Raise {A} e.

(** ** Data model *)

(** Metadata values the code stores: strings (the source path) and integers
    (the document identifier, page numbers). *)
Inductive MetaValue : Type :=
| MStr (s : string)
| MInt (n : Z).

Global Instance MetaValue_eq_dec : EqDecision MetaValue.
Proof. solve_decision. Defined.

(** [langchain_core.documents.Document]. *)
Record Document : Type := mkDocument {
  page_content : string;
  metadata : gmap string MetaValue
}.

(** A fixed-dimension numeric vector; rationals stand for the numbers. *)
Definition Vector : Type := list Q.

(** The unit stored by the vector index. *)
Record EmbeddingRecord : Type := mkRecord {
  record_id : nat;
  embedding : Vector;
  document : Document
}.

Definition record_file_id (r : EmbeddingRecord) : option MetaValue :=
  metadata (document r) !! "file_id".

(** The process-wide mutable objects: the module globals of
    [main_simple.py], the upload directory, the sqlite table
    [document_store] with its AUTOINCREMENT counter, and the in-memory
    Chroma collection behind [vectorstore]. *)
Record World : Type := mkWorld {
  RAG_ENABLED : bool;
  files : gmap string string;
  document_store : list (Z * string);
  document_store_seq : Z;
  vectorstore : list EmbeddingRecord;
  next_record_id : nat
}.

Definition set_RAG_ENABLED (b : bool) (w : World) : World :=
  mkWorld b (files w) (document_store w) (document_store_seq w)
          (vectorstore w) (next_record_id w).
Definition set_files (f : gmap string string) (w : World) : World :=
  mkWorld (RAG_ENABLED w) f (document_store w) (document_store_seq w)
          (vectorstore w) (next_record_id w).
Definition set_document_store (rows : list (Z * string)) (seq : Z) (w : World) : World :=
  mkWorld (RAG_ENABLED w) (files w) rows seq (vectorstore w) (next_record_id w).
Definition set_vectorstore (rs : list EmbeddingRecord) (next : nat) (w : World) : World :=
  mkWorld (RAG_ENABLED w) (files w) (document_store w) (document_store_seq w) rs next.

Definition M (A : Type) : Type := World → outcome A * World.

Definition ret {A} (a : A) : M A := λ w, (Return a, w).
Definition raise {A} (e : exn) : M A := λ w, (Raise e, w).
Definition lift {A} (o : outcome A) : M A := λ w, (o, w).
Definition bind {A B} (c : M A) (k : A → M B) : M B :=
  λ w, match c w with
       | (Return a, w') => k a w'
       | (Raise e, w') => (Raise e, w')
       end.
Definition gets {A} (f : World → A) : M A := λ w, (Return (f w), w).
Definition modify (f : World → World) : M unit := λ w, (Return tt, f w).

(** [try: body  except Exception as e: handler e]. *)
Definition try_except {A} (body : M A) (handler : exn → M A) : M A :=
  λ w, match body w with
       | (Return a, w') => (Return a, w')
       | (Raise e, w') => handler e w'
       end.

Declare Scope py_scope.
Delimit Scope py_scope with py.
Notation "x <- c ;; k" := (bind c (λ x, k))
  (at level 100, c at next level, right associativity) : py_scope.
Notation "c ;;; k" := (bind c (λ _, k))
  (at level 100, right associativity) : py_scope.
Local Open Scope py_scope.

(** [outcome] on its own, for calls that touch no modelled state. *)
Definition obind {A B} (o : outcome A) (k : A → outcome B) : outcome B :=
  match o with
  | Return a => k a
  | Raise e => Raise e
  end.

Fixpoint omap {A B} (f : A → outcome B) (l : list A) : outcome (list B) :=
  match l with
  | [] => Return []
  | x :: l' => obind (f x) (λ y, obind (omap f l') (λ ys, Return (y :: ys)))
  end.

(** ** The environment: third-party calls treated as black boxes *)

Inductive Message : Type :=
| SystemMessage (content : string)
| HumanMessage (content : string).

Record Env : Type := mkEnv {
  (** [HuggingFaceEmbeddings]: text to vector, or an error. *)
  embed : string → outcome Vector;
  (** distance of the collection's metric between query and stored vector *)
  distance : Vector → Vector → Q;
  (** what reading in text mode makes of the bytes of a file opened with
      [encoding='utf-8'] *)
  decode_utf8 : string → outcome string;
  (** [PyPDFLoader(path).load()] and its siblings, reading the upload
      directory *)
  PyPDFLoader_load : gmap string string → string → outcome (list Document);
  Docx2txtLoader_load : gmap string string → string → outcome (list Document);
  UnstructuredHTMLLoader_load : gmap string string → string → outcome (list Document);
  (** [ChatGoogleGenerativeAI(model, api_key, temperature)], its [invoke] on
      the prompt's messages and [StrOutputParser]: the completion text *)
  llm_invoke : string → Q → list Message → outcome string;
  (** the two [from ... import ...] lines of [lazy_load_rag] *)
  rag_import : outcome unit;
  (** [os.makedirs("uploads", exist_ok=True)] *)
  makedirs_uploads : outcome unit;
  (** [await file.read()], [open(path, "wb")] and the write that follows *)
  open_wb : string → outcome unit;
  (** iteration order of the set literal [allowed_extensions] *)
  allowed_extensions_iter : list string
}.

(* ===================================================================== *)
(** ** chroma_utils.py *)
(* ===================================================================== *)

(** [RecursiveCharacterTextSplitter(chunk_size=1000, chunk_overlap=200,
    length_function=len)]: the two numbers are the source's. *)
Definition chunk_size : nat := 1000.
Definition chunk_overlap : nat := 200.

Definition newline : ascii := ascii_of_nat 10.
Definition paragraph_sep : string := String newline (String newline "").

Module Chunker.

(** The three kinds of semantic boundary, as tests on a cut position [k]
    of [text]: the characters just before [k] end a paragraph, a sentence
    or a word. *)
Definition paragraph_end (text : string) (k : nat) : bool :=
  String.eqb (PyStr.slice (k - 2) k text) paragraph_sep.
Definition sentence_end (text : string) (k : nat) : bool :=
  String.eqb (PyStr.slice (k - 2) k text) ". ".
Definition word_end (text : string) (k : nat) : bool :=
  String.eqb (PyStr.slice (k - 1) k text) " ".

(** The largest cut position [k] with [lo < k <= lo + n] that satisfies
    [boundary], if there is one. *)
Fixpoint last_boundary (boundary : nat → bool) (lo n : nat) : option nat :=
  match n with
  | O => None
  | S n' => if boundary (lo + n)%nat then Some (lo + n)%nat
            else last_boundary boundary lo n'
  end.

(** Where the first chunk of a text longer than [chunk_size] ends: at the
    last paragraph end it can reach, else the last sentence end, else the
    last word end, else at a hard cut after [chunk_size] characters.  The
    cut lies beyond [chunk_overlap] so that the next chunk, which starts
    [chunk_overlap] characters before the cut, starts later than this one. *)
Definition cut_point (text : string) : nat :=
  let reach := (chunk_size - chunk_overlap)%nat in
  match last_boundary (paragraph_end text) chunk_overlap reach with
  | Some k => k
  | None =>
      match last_boundary (sentence_end text) chunk_overlap reach with
      | Some k => k
      | None =>
          match last_boundary (word_end text) chunk_overlap reach with
          | Some k => k
          | None => chunk_size
          end
      end
  end.

Fixpoint split_go (fuel : nat) (text : string) : list string :=
  if (String.length text <=? chunk_size)%nat then [text]
  else
    match fuel with
    | O => [text]
    | S fuel' =>
        let k := cut_point text in
        PyStr.take k text :: split_go fuel' (PyStr.drop (k - chunk_overlap) text)
    end.

End Chunker.

(** Modelled from the spec: the class [RecursiveCharacterTextSplitter] of
    langchain_text_splitters, which the source only instantiates, with
    chunk size C = 1000 and overlap O = 200.  A text that fits in one chunk
    is returned as that one chunk; a longer text is cut at a paragraph,
    sentence or word boundary where one is in reach and by a hard cut
    otherwise, and consecutive chunks share O characters.  Every step
    shortens the text, so its length is enough fuel. *)
Definition split_text (text : string) : list string :=
  Chunker.split_go (String.length text) text.

(** Modelled from the spec: [text_splitter.split_documents], which chunks
    every text unit in order and gives each chunk a copy of its unit's
    metadata. *)
Definition split_documents (documents : list Document) : list Document :=
  d ← documents; (λ chunk, mkDocument chunk (metadata d)) <$> split_text (page_content d).

(** The filter [where={"file_id": file_id}]: the record's metadata has the
    key "file_id" with that integer as its value. *)
Definition where_file_id (file_id : Z) (r : EmbeddingRecord) : Prop :=
  record_file_id r = Some (MInt file_id).

Global Instance where_file_id_dec file_id r : Decision (where_file_id file_id r).
Proof. unfold where_file_id. apply _. Defined.

(** Modelled from the spec: [vectorstore._collection.delete(where=
    {"file_id": file_id})] of Chroma removes every record whose metadata
    maps "file_id" to that value, and deleting nothing is not an error. *)
Definition collection_delete (file_id : Z) : M unit :=
  modify (λ w, set_vectorstore
                 (filter (λ r, ¬ where_file_id file_id r) (vectorstore w))
                 (next_record_id w) w).

Definition new_records (next : nat) (docs : list Document) (vecs : list Vector)
  : list EmbeddingRecord :=
  imap (λ i dv, mkRecord (next + i) (snd dv) (fst dv)) (zip docs vecs).

Section WithEnv.

Variable env : Env.

(** Modelled from the spec: [vectorstore.add_documents] of langchain_chroma
    computes one embedding per chunk with the fixed embedding function and
    stores each chunk as one record with its metadata, after the records
    already there; an embedding error propagates, and nothing has been
    stored by then. *)
Definition add_documents (docs : list Document) : M unit :=
  vecs <- lift (omap (embed env) (page_content <$> docs)) ;;
  modify (λ w, set_vectorstore
                 (vectorstore w ++ new_records (next_record_id w) docs vecs)
                 (next_record_id w + length docs)%nat w).

(** Stable insertion by increasing distance to the query vector. *)
Fixpoint insert_ranked (q : Vector) (r : EmbeddingRecord)
    (l : list EmbeddingRecord) : list EmbeddingRecord :=
  match l with
  | [] => [r]
  | r' :: l' =>
      if Qle_bool (distance env q (embedding r)) (distance env q (embedding r'))
      then r :: l
      else r' :: insert_ranked q r l'
  end.

Definition rank (q : Vector) (rs : list EmbeddingRecord) : list EmbeddingRecord :=
  foldr (insert_ranked q) [] rs.

(** Modelled from the spec: similarity search embeds the query with the
    same embedding function and returns the [k] nearest records' chunks,
    ties in insertion order. *)
Definition similarity_search (query : string) (k : nat) : M (list Document) :=
  q <- lift (embed env query) ;;
  rs <- gets vectorstore ;;
  ret (document <$> take k (rank q rs)).

(** [open(file_path, 'r', encoding='utf-8')] and [f.read()]. *)
Definition read_text (file_path : string) : M string :=
  fs <- gets files ;;
  match fs !! file_path with
  | None => raise (FileNotFoundError file_path)
  | Some bytes => lift (decode_utf8 env bytes)
  end.

Definition load_and_split_document (file_path : string) : M (list Document) :=
  if PyStr.endswith file_path ".pdf" then
    fs <- gets files ;;
    documents <- lift (PyPDFLoader_load env fs file_path) ;;
    ret (split_documents documents)
  else if PyStr.endswith file_path ".docx" then
    fs <- gets files ;;
    documents <- lift (Docx2txtLoader_load env fs file_path) ;;
    ret (split_documents documents)
  else if PyStr.endswith file_path ".html" then
    fs <- gets files ;;
    documents <- lift (UnstructuredHTMLLoader_load env fs file_path) ;;
    ret (split_documents documents)
  else if PyStr.endswith file_path ".txt" then
    text <- read_text file_path ;;
    let chunks := split_text text in
    let docs := (λ chunk, mkDocument chunk {[ "source" := MStr file_path ]}) <$> chunks in
    ret docs
  else
    raise (ValueError ("Unsupported file type: " +:+ file_path)).

(** The loop [for split in splits: split.metadata['file_id'] = file_id]. *)
Definition tag_file_id (file_id : Z) (splits : list Document) : list Document :=
  (λ split, mkDocument (page_content split)
                       (<[ "file_id" := MInt file_id ]> (metadata split))) <$> splits.

Definition index_document_to_chroma (file_path : string) (file_id : Z) : M bool :=
  try_except
    (splits <- load_and_split_document file_path ;;
     let splits := tag_file_id file_id splits in
     add_documents splits ;;;
     ret true)
    (λ e, ret false).

Definition delete_doc_from_chroma (file_id : Z) : M bool :=
  try_except
    (collection_delete file_id ;;;
     ret true)
    (λ e, ret false).

End WithEnv.

(** Whether the dispatch of [load_and_split_document] has a branch for the
    path: one of its four [endswith] tests succeeds. *)
Definition has_loader (file_path : string) : bool :=
  PyStr.endswith file_path ".pdf" || PyStr.endswith file_path ".docx" ||
  PyStr.endswith file_path ".html" || PyStr.endswith file_path ".txt".

(* ===================================================================== *)
(** ** langchain_utils.py *)
(* ===================================================================== *)

Definition system_instruction : string :=
  "You are a helpful AI assistant. Use the provided context to answer questions.".

Definition retriever_k : nat := 2.

Definition format_docs (docs : list Document) : string :=
  PyStr.join paragraph_sep (page_content <$> docs).

(** [ChatPromptTemplate.from_messages] applied to context and input. *)
Definition prompt (context input : string) : list Message :=
  [ SystemMessage system_instruction;
    SystemMessage ("Context:" +:+ String newline context);
    HumanMessage input ].

Section RagChain.

Variable env : Env.

(** The chain [{context: retriever | format_docs, input: passthrough}
    | prompt | llm | StrOutputParser()]. *)
Definition rag_chain (model input : string) : M string :=
  docs <- similarity_search env input retriever_k ;;
  let context := format_docs docs in
  lift (llm_invoke env model 0%Q (prompt context input)).

(** [get_rag_chain(model).invoke(input_text)]: the wrapper's dict has the
    single key "answer". *)
Definition get_rag_chain (model input_text : string) : M (gmap string string) :=
  result <- rag_chain model input_text ;;
  ret {[ "answer" := result ]}.

End RagChain.

(* ===================================================================== *)
(** ** main_simple.py: the upload endpoint *)
(* ===================================================================== *)

Definition allowed_extensions : gset string := {[ ".pdf"; ".docx"; ".html"; ".txt" ]}.

(** [os.path.splitext(file.filename)[1].lower()]. *)
Definition file_ext (filename : string) : string :=
  PyStr.lower (snd (PyStr.splitext filename)).

Record UploadResponse : Type := mkUploadResponse {
  message : string;
  response_file_id : Z;
  response_filename : string
}.

(** [insert_document_record]: the new row gets the next AUTOINCREMENT id.
    The model assumes that the sqlite3 calls succeed: an unwritable or
    locked database file, or an integer outside the 64-bit range, makes the
    source raise here and in [delete_document_record]; the handlers that
    answer such an error with 500 are kept in the endpoints below but are
    never entered. *)
Definition insert_document_record (filename : string) : M Z :=
  seq <- gets document_store_seq ;;
  let file_id := seq + 1 in
  modify (λ w, set_document_store (document_store w ++ [(file_id, filename)]) file_id w) ;;;
  ret file_id.

Definition delete_document_record (file_id : Z) : M unit :=
  modify (λ w, set_document_store
                 (filter (λ row, row.1 ≠ file_id) (document_store w))
                 (document_store_seq w) w).

Section Endpoints.

Variable env : Env.

(** [lazy_load_rag]: [get_rag_chain] is bound exactly when [RAG_ENABLED]
    is set, so the flag alone records whether the components are loaded. *)
Definition lazy_load_rag : M unit :=
  enabled <- gets RAG_ENABLED ;;
  if enabled then ret tt
  else
    try_except
      (lift (rag_import env) ;;;
       modify (set_RAG_ENABLED true))
      (λ e, modify (set_RAG_ENABLED false)).

(** [upload_document(file)]: [filename] is [file.filename] (a missing name
    is falsy like the empty one) and [contents] what [file.read()] gives. *)
Definition upload_document (filename contents : string) : M UploadResponse :=
  try_except
    (lazy_load_rag ;;;
     enabled <- gets RAG_ENABLED ;;
     if negb enabled then
       raise (HTTPException 503
         "Document upload is not available. RAG features not initialized.")
     else if String.eqb filename "" then
       raise (HTTPException 400 "No file provided")
     else
       let file_ext := file_ext filename in
       if negb (bool_decide (file_ext ∈ allowed_extensions)) then
         raise (HTTPException 400
           ("Unsupported file type: " +:+ file_ext +:+ ". Allowed: " +:+
            PyStr.join ", " (allowed_extensions_iter env)))
       else
         lift (makedirs_uploads env) ;;;
         let file_path := "uploads/" +:+ filename in
         try_except
           (lift (open_wb env file_path) ;;;
            modify (λ w, set_files (<[ file_path := contents ]> (files w)) w))
           (λ e, raise (HTTPException 500 ("Error saving file: " +:+ exn_str e))) ;;;
         file_id <- try_except
           (insert_document_record filename)
           (λ e, raise (HTTPException 500
              ("Error recording file in database: " +:+ exn_str e))) ;;
         success <- try_except
           (index_document_to_chroma env file_path file_id)
           (λ e, delete_document_record file_id ;;;
                 raise (HTTPException 500
                   ("Error indexing document: " +:+ exn_str e))) ;;
         if (success : bool) then
           ret (mkUploadResponse "Document uploaded and indexed successfully"
                                 file_id filename)
         else
           delete_document_record file_id ;;;
           raise (HTTPException 400 "Failed to index document"))
    (λ e, match e with
          | HTTPException _ _ => raise e
          | _ => raise (HTTPException 500
                   ("Unexpected error uploading document: " +:+ exn_str e))
          end).

End Endpoints.

(* ===================================================================== *)
(** ** main_simple.py: the delete and chat endpoints *)
(* ===================================================================== *)

Record DeleteResponse : Type := mkDeleteResponse {
  delete_message : string;
  delete_file_id : Z
}.

(** A row of the sqlite table [application_logs]; the id and timestamp
    columns, which sqlite fills in, are left out. *)
Record LogRow : Type := mkLogRow {
  log_session_id : string;
  log_user_query : string;
  log_gpt_response : string;
  log_model : string
}.

(** The pydantic models [QueryInput] and [QueryResponse]. *)
Record QueryInput : Type := mkQueryInput {
  question : string;
  session_id : option string;
  model : string
}.

Record QueryResponse : Type := mkQueryResponse {
  answer : string;
  response_session_id : string
}.

(** [insert_application_logs]: one INSERT into [application_logs].  The
    sqlite3 call is assumed to succeed, as for [insert_document_record]; in
    the source it stands inside the try block of [chat], so that its failure
    would also be answered with the error 500. *)
Definition insert_application_logs
    (session_id user_query gpt_response model : string)
    (logs : list LogRow) : list LogRow :=
  logs ++ [mkLogRow session_id user_query gpt_response model].

(** The answer [chat] gives when the RAG components are not loaded. *)
Definition fallback_answer (question : string) : string :=
  "[RAG Mode Disabled] Question: " +:+ question +:+ paragraph_sep +:+
  "To enable full RAG features, install: pip install langchain-community langchain-chroma python-docx pypdf".

Section MoreEndpoints.

Variable env : Env.

(** [delete_document(request)] with [file_id] the request's field. *)
Definition delete_document (file_id : Z) : M DeleteResponse :=
  try_except
    (lazy_load_rag env ;;;
     enabled <- gets RAG_ENABLED ;;
     if negb enabled then
       raise (HTTPException 503
         "Document deletion is not available. RAG features not initialized.")
     else
       success <- delete_doc_from_chroma file_id ;;
       if (success : bool) then
         delete_document_record file_id ;;;
         ret (mkDeleteResponse "Document deleted successfully" file_id)
       else
         raise (HTTPException 400 "Failed to delete document from vector store"))
    (λ e, match e with
          | HTTPException _ _ => raise e
          | _ => raise (HTTPException 500
                   ("Error deleting document: " +:+ exn_str e))
          end).

(** The part of [chat] that computes [answer]: the chain's result when the
    components are loaded (the inner handler only re-raises), the fallback
    text otherwise. *)
Definition chat_answer (query : QueryInput) : M string :=
  lazy_load_rag env ;;;
  enabled <- gets RAG_ENABLED ;;
  if (enabled : bool) then
    try_except
      (result <- get_rag_chain env (model query) (question query) ;;
       ret (default "No answer generated" (result !! "answer")))
      (λ e, raise e)
  else
    ret (fallback_answer (question query)).

(** [chat(query)].  [uuid4] is what [str(uuid.uuid4())] would give; it is
    used when the request has no session id or an empty one.  The log table
    is threaded beside the world.  Every exception of the body, whatever its
    class, is turned into the error 500 by the single handler. *)
Definition chat (uuid4 : string) (query : QueryInput) (logs : list LogRow)
  : World → outcome QueryResponse * World * list LogRow :=
  λ w,
    let session_id :=
      match session_id query with
      | Some s => if String.eqb s "" then uuid4 else s
      | None => uuid4
      end in
    match chat_answer query w with
    | (Return answer, w') =>
        (Return (mkQueryResponse answer session_id), w',
         insert_application_logs session_id (question query) answer (model query) logs)
    | (Raise e, w') =>
        (Raise (HTTPException 500 ("Error processing query: " +:+ exn_str e)), w', logs)
    end.

End MoreEndpoints.

(** ** Consistency of the two stores *)

(** What the endpoints keep true of the sqlite table and the vector index:
    no row's id is above the AUTOINCREMENT counter, ids are not repeated,
    and every record of the index is tagged with the id of a row. *)
Definition consistent (w : World) : Prop :=
  Forall (λ row, row.1 ≤ document_store_seq w) (document_store w) ∧
  NoDup (document_store w).*1 ∧
  Forall (λ r, ∃ id, record_file_id r = Some (MInt id) ∧
                     id ∈ (document_store w).*1) (vectorstore w).

(** The requests that change the stores, and the world each one leaves. *)
Inductive Request : Type :=
| UploadDoc (filename contents : string)
| DeleteDoc (file_id : Z)
| Chat (uuid4 : string) (query : QueryInput).

Definition handle (env : Env) (w : World) (req : Request) : World :=
  match req with
  | UploadDoc filename contents => (upload_document env filename contents w).2
  | DeleteDoc file_id => (delete_document env file_id w).2
  | Chat uuid4 query => (chat env uuid4 query [] w).1.2
  end.

Definition serve (env : Env) (w : World) (reqs : list Request) : World :=
  foldl (handle env) w reqs.

(* ===================================================================== *)
(** ** A concrete environment, for running the model *)
(* ===================================================================== *)

Module Demo.

(** One-dimensional embedding by length; the text "boom" cannot be
    embedded. *)
Definition embed (s : string) : outcome Vector :=
  if String.eqb s "boom" then Raise (LibraryError "embedding failed")
  else Return [inject_Z (Z.of_nat (String.length s))].

Definition distance (q v : Vector) : Q :=
  match q, v with
  | a :: _, b :: _ => Qabs (a - b)
  | _, _ => 0
  end.

(** A parser that yields the file's bytes as one text unit. *)
Definition parse (fs : gmap string string) (path : string) : outcome (list Document) :=
  match fs !! path with
  | None => Raise (FileNotFoundError path)
  | Some bytes => Return [mkDocument bytes {[ "source" := MStr path ]}]
  end.

Definition message_content (m : Message) : string :=
  match m with
  | SystemMessage c => c
  | HumanMessage c => c
  end.

(** A model that echoes its prompt. *)
Definition llm (model : string) (temperature : Q) (messages : list Message)
  : outcome string :=
  Return (PyStr.join "|" (message_content <$> messages)).

Definition env : Env :=
  mkEnv embed distance (λ bytes, Return bytes) parse parse parse llm
        (Return tt) (Return tt) (λ _, Return tt)
        [".txt"; ".pdf"; ".html"; ".docx"].

Definition start : World := mkWorld false ∅ [] 0 [] 0.

(** The upload directory holds one text file; nothing is indexed yet. *)
Definition one_file : World :=
  mkWorld true {[ "uploads/a.txt" := "Alpha" ]} [(1, "a.txt")] 1 [] 0.

Definition doc (text : string) (file_id : Z) : Document :=
  mkDocument text {[ "file_id" := MInt file_id ]}.

(** An index holding two chunks of document 1 and one chunk of document 2. *)
Definition two_docs : World :=
  mkWorld true ∅ [(1, "a.txt"); (2, "b.txt")] 2
          [ mkRecord 0 [1%Q] (doc "a" 1);
            mkRecord 1 [3%Q] (doc "bcd" 2);
            mkRecord 2 [2%Q] (doc "ef" 1) ] 3.

End Demo.

(* ===================================================================== *)
(** * Properties *)
(* ===================================================================== *)

Example splitext_txt : PyStr.splitext "notes.v2.TXT" = ("notes.v2", ".TXT").
Proof. reflexivity. Qed.
Example splitext_hidden : PyStr.splitext "dir.d/.pdf" = ("dir.d/.pdf", "").
Proof. reflexivity. Qed.
Example endswith_pdf : PyStr.endswith "uploads/.pdf" ".pdf" = true.
Proof. reflexivity. Qed.
Example lower_mixed : PyStr.lower ".DocX" = ".docx".
Proof. reflexivity. Qed.

(** A text of 2500 characters, ten-character words: three chunks, each
    cut at a word end, each starting 200 characters before the last cut. *)
Example split_text_long :
  String.length <$> split_text (String.concat "" (replicate 250 "abcdefghi "))
    = [1000; 1000; 900]%nat.
Proof. vm_compute. reflexivity. Qed.

(** A text file is uploaded into the empty world: it is recorded under the
    identifier 1 and indexed as one chunk tagged with that identifier. *)
Example upload_text_file :
  ∃ w' : World,
    upload_document Demo.env "sky.txt" "The sky is blue." Demo.start =
      (Return (mkUploadResponse "Document uploaded and indexed successfully"
                                1 "sky.txt"), w') ∧
    document_store w' = [(1, "sky.txt")] ∧
    document <$> vectorstore w' =
      [ mkDocument "The sky is blue."
          (<[ "file_id" := MInt 1 ]> {[ "source" := MStr "uploads/sky.txt" ]}) ].
Proof. eexists. split; [vm_compute; reflexivity|]. split; reflexivity. Qed.

(** The text "boom" cannot be embedded: the upload fails, the row is
    removed again and nothing is indexed. *)
Example upload_embedding_failure :
  ∃ w' : World,
    upload_document Demo.env "b.txt" "boom" Demo.start =
      (Raise (HTTPException 400 "Failed to index document"), w') ∧
    document_store w' = [] ∧ vectorstore w' = [].
Proof. eexists. split; [vm_compute; reflexivity|]. split; reflexivity. Qed.

(** ** Running the monad *)

Lemma bind_Return {A B} (c : M A) (k : A → M B) w a w1 :
  c w = (Return a, w1) → bind c k w = k a w1.
Proof. intros H. unfold bind. by rewrite H. Qed.

Lemma bind_Raise {A B} (c : M A) (k : A → M B) w e w1 :
  c w = (Raise e, w1) → bind c k w = (Raise e, w1).
Proof. intros H. unfold bind. by rewrite H. Qed.

Lemma try_except_Return {A} (body : M A) handler w a w1 :
  body w = (Return a, w1) → try_except body handler w = (Return a, w1).
Proof. intros H. unfold try_except. by rewrite H. Qed.

Lemma try_except_Raise {A} (body : M A) handler w e w1 :
  body w = (Raise e, w1) → try_except body handler w = handler e w1.
Proof. intros H. unfold try_except. by rewrite H. Qed.

Lemma World_eta w :
  mkWorld (RAG_ENABLED w) (files w) (document_store w) (document_store_seq w)
          (vectorstore w) (next_record_id w) = w.
Proof. by destruct w. Qed.

(** ** The vector index *)

Lemma omap_length {A B} (f : A → outcome B) l ys :
  omap f l = Return ys → length ys = length l.
Proof.
  revert ys. induction l as [|x l IH]; intros ys; simpl.
  - by intros [= <-].
  - destruct (f x) as [y|e]; simpl; [|done].
    destruct (omap f l) as [zs|e]; simpl; [|done].
    intros [= <-]. simpl. f_equal. by apply IH.
Qed.

Lemma new_records_document next docs vecs :
  length vecs = length docs → document <$> new_records next docs vecs = docs.
Proof.
  intros Hlen. unfold new_records. rewrite fmap_imap.
  rewrite (imap_ext _ (const fst)) by done.
  rewrite imap_const. apply fst_zip. lia.
Qed.

Section IndexFacts.

Variable env : Env.

(** [add_documents] either stores one record per chunk, in order and
    after the records already there, or raises and stores nothing. *)
Lemma add_documents_cases docs w :
  (∃ vecs, omap (embed env) (page_content <$> docs) = Return vecs ∧
           add_documents env docs w =
             (Return tt,
              set_vectorstore
                (vectorstore w ++ new_records (next_record_id w) docs vecs)
                (next_record_id w + length docs)%nat w)) ∨
  (∃ e, omap (embed env) (page_content <$> docs) = Raise e ∧
        add_documents env docs w = (Raise e, w)).
Proof.
  unfold add_documents, bind, lift, modify.
  destruct (omap _ _) as [vecs|e]; [left|right]; eauto.
Qed.

Lemma add_documents_Return docs w u w' :
  add_documents env docs w = (Return u, w') →
  ∃ new, vectorstore w' = vectorstore w ++ new ∧ document <$> new = docs.
Proof.
  destruct (add_documents_cases docs w) as [(vecs & Hv & ->)|(e & _ & ->)];
    [|done].
  intros [= _ <-]. eexists. split; [reflexivity|].
  apply new_records_document.
  apply omap_length in Hv. by rewrite Hv, length_fmap.
Qed.

Lemma add_documents_Raise docs w e w' :
  add_documents env docs w = (Raise e, w') → w' = w.
Proof.
  destruct (add_documents_cases docs w) as [(vecs & _ & ->)|(e' & _ & ->)];
    [done|]. by intros [= _ <-].
Qed.

(** Loading reads the upload directory and changes nothing. *)
Lemma load_and_split_document_world file_path w o w' :
  load_and_split_document env file_path w = (o, w') → w' = w.
Proof.
  unfold load_and_split_document, read_text, bind, gets, lift, ret, raise.
  repeat case_match; intros ?; by simplify_eq.
Qed.

End IndexFacts.

Lemma filter_all {A} (P : A → Prop) `{!∀ x, Decision (P x)} (l : list A) :
  Forall P l → filter P l = l.
Proof.
  induction 1 as [|x l Hx _ IH]; [done|].
  rewrite filter_cons_True by done. by rewrite IH.
Qed.

Lemma tag_file_id_tagged file_id splits :
  Forall (λ d, metadata d !! "file_id" = Some (MInt file_id))
         (tag_file_id file_id splits).
Proof.
  unfold tag_file_id. apply Forall_fmap, Forall_forall. intros d _. simpl.
  apply lookup_insert_eq.
Qed.

Section Ranking.

Variable env : Env.

Lemma insert_ranked_Permutation q r l : insert_ranked env q r l ≡ₚ r :: l.
Proof.
  induction l as [|r' l IH]; simpl; [done|].
  case_match; [done|]. rewrite IH. apply Permutation_swap.
Qed.

Lemma rank_Permutation q rs : rank env q rs ≡ₚ rs.
Proof.
  unfold rank. induction rs as [|r rs IH]; simpl; [done|].
  by rewrite insert_ranked_Permutation, IH.
Qed.

(** A search that asks for at least as many results as the index holds
    returns every chunk of the index. *)
Lemma similarity_search_all query q k w :
  embed env query = Return q →
  (length (vectorstore w) ≤ k)%nat →
  ∃ docs, similarity_search env query k w = (Return docs, w) ∧
          docs ≡ₚ document <$> vectorstore w.
Proof.
  intros Hq Hk. unfold similarity_search, bind, lift, gets, ret. rewrite Hq.
  eexists. split; [reflexivity|].
  rewrite take_ge by (by rewrite rank_Permutation).
  by rewrite rank_Permutation.
Qed.

End Ranking.

(** ** Ingestion *)

(** The three ways a run of [index_document_to_chroma] can go: both steps
    complete; [add_documents] raises; loading or splitting raises.  A raise
    leaves the world as it was. *)
Lemma index_document_to_chroma_cases env file_path file_id w :
  (∃ splits w',
     load_and_split_document env file_path w = (Return splits, w) ∧
     add_documents env (tag_file_id file_id splits) w = (Return tt, w') ∧
     index_document_to_chroma env file_path file_id w = (Return true, w')) ∨
  (∃ splits e,
     load_and_split_document env file_path w = (Return splits, w) ∧
     add_documents env (tag_file_id file_id splits) w = (Raise e, w) ∧
     index_document_to_chroma env file_path file_id w = (Return false, w)) ∨
  (∃ e,
     load_and_split_document env file_path w = (Raise e, w) ∧
     index_document_to_chroma env file_path file_id w = (Return false, w)).
Proof.
  unfold index_document_to_chroma.
  destruct (load_and_split_document env file_path w) as [[splits|e] w1] eqn:Hload;
    pose proof (load_and_split_document_world _ _ _ _ _ Hload) as ->.
  - destruct (add_documents env (tag_file_id file_id splits) w)
      as [[[]|e] w2] eqn:Hadd.
    + left. exists splits, w2. repeat split; [done|].
      apply try_except_Return. erewrite bind_Return by exact Hload.
      by erewrite bind_Return by exact Hadd.
    + pose proof (add_documents_Raise _ _ _ _ _ Hadd) as ->.
      right; left. exists splits, e. repeat split; [done|].
      erewrite try_except_Raise; [reflexivity|].
      erewrite bind_Return by exact Hload.
      by erewrite bind_Raise by exact Hadd.
  - right; right. exists e. split; [done|].
    erewrite try_except_Raise; [reflexivity|]. by erewrite bind_Raise.
Qed.

(** C9: [index_document_to_chroma] never propagates an exception: on every
    input it returns a boolean, and the boolean is [True] exactly when
    loading and splitting returned the chunks and [add_documents] of the
    tagged chunks completed; a raise in either step gives [False]. *)
Theorem index_document_to_chroma_never_raises
    (env : Env) (file_path : string) (file_id : Z) (w : World) :
  ∃ (success : bool) (w' : World),
    index_document_to_chroma env file_path file_id w = (Return success, w') ∧
    (success = true ↔
       ∃ splits,
         load_and_split_document env file_path w = (Return splits, w) ∧
         add_documents env (tag_file_id file_id splits) w = (Return tt, w')).
Proof.
  destruct (index_document_to_chroma_cases env file_path file_id w)
    as [(splits & w' & Hload & Hadd & ->)
       |[(splits & e & Hload & Hadd & ->)|(e & Hload & ->)]].
  - exists true, w'. split; [done|]. split; [|done]. intros _. by exists splits.
  - exists false, w. split; [done|]. split; [done|].
    intros (splits' & Hload' & Hadd'). congruence.
  - exists false, w. split; [done|]. split; [done|].
    intros (splits' & Hload' & _). congruence.
Qed.

(** C2: ingestion returns a success boolean, and every record that a
    successful [index_document_to_chroma(file_path, file_id)] adds to the
    index carries [file_id] under the metadata key "file_id": the index
    after the call is the index before it followed by one record per chunk,
    each holding its tagged chunk. *)
Theorem ingest_tags_every_record
    (env : Env) (file_path : string) (file_id : Z) (w : World) :
  (∃ (success : bool) (w1 : World),
     index_document_to_chroma env file_path file_id w = (Return success, w1)) ∧
  ∀ w' : World,
    index_document_to_chroma env file_path file_id w = (Return true, w') →
    ∃ splits new,
      load_and_split_document env file_path w = (Return splits, w) ∧
      vectorstore w' = vectorstore w ++ new ∧
      document <$> new = tag_file_id file_id splits ∧
      Forall (λ r, record_file_id r = Some (MInt file_id)) new.
Proof.
  destruct (index_document_to_chroma_cases env file_path file_id w)
    as [(splits & w1 & Hload & Hadd & Hrun)
       |[(splits & e & Hload & Hadd & Hrun)|(e & Hload & Hrun)]];
    (split; [by eauto|]); intros w' Hw'; rewrite Hrun in Hw'; [|done..].
  injection Hw' as ->.
  apply add_documents_Return in Hadd as (new & Hstore & Hdocs).
  exists splits, new. repeat split; try done.
  pose proof (tag_file_id_tagged file_id splits) as Htag.
  rewrite <- Hdocs in Htag. by apply Forall_fmap in Htag.
Qed.

(** A successful ingestion of a text file into the empty index. *)
Lemma ingest_tags_every_record_witness :
  ∃ splits new,
    load_and_split_document Demo.env "uploads/sky.txt"
      (set_files {[ "uploads/sky.txt" := "The sky is blue." ]} Demo.start)
    = (Return splits,
       set_files {[ "uploads/sky.txt" := "The sky is blue." ]} Demo.start) ∧
    vectorstore
      (snd (index_document_to_chroma Demo.env "uploads/sky.txt" 42
              (set_files {[ "uploads/sky.txt" := "The sky is blue." ]} Demo.start)))
    = vectorstore
        (set_files {[ "uploads/sky.txt" := "The sky is blue." ]} Demo.start) ++ new ∧
    document <$> new = tag_file_id 42 splits ∧
    Forall (λ r, record_file_id r = Some (MInt 42)) new.
Proof.
  apply (proj2 (ingest_tags_every_record Demo.env "uploads/sky.txt" 42
    (set_files {[ "uploads/sky.txt" := "The sky is blue." ]} Demo.start))).
  vm_compute. reflexivity.
Defined.

(** Unless it returns [True], a run of [index_document_to_chroma] leaves
    the world as it was. *)
Lemma index_document_to_chroma_unchanged env file_path file_id w o w' :
  index_document_to_chroma env file_path file_id w = (o, w') →
  o ≠ Return true → w' = w.
Proof.
  intros Hrun Ho.
  destruct (index_document_to_chroma_cases env file_path file_id w)
    as [(splits & w1 & _ & _ & Hrun')
       |[(splits & e & _ & _ & Hrun')|(e & _ & Hrun')]];
    rewrite Hrun' in Hrun; by simplify_eq.
Qed.

Lemma lazy_load_rag_run env w :
  ∃ b, lazy_load_rag env w = (Return tt, set_RAG_ENABLED b w).
Proof.
  unfold lazy_load_rag, bind, gets, try_except, lift, modify, ret.
  destruct (RAG_ENABLED w) eqn:Hen.
  - exists true. f_equal. destruct w; simpl in *; by subst.
  - destruct (rag_import env) as [[]|e]; eauto.
Qed.


(** ** Deletion *)

Lemma delete_doc_from_chroma_run file_id w :
  delete_doc_from_chroma file_id w =
    (Return true,
     set_vectorstore (filter (λ r, ¬ where_file_id file_id r) (vectorstore w))
                     (next_record_id w) w).
Proof. reflexivity. Qed.

(** C1: [delete_doc_from_chroma(file_id)] succeeds on every index; the
    index it leaves is the old one without the records whose metadata
    "file_id" equals [file_id], the others kept as they were and in their
    order; and a later search that succeeds with [k] at least the size of the
    index returns all chunks of the other documents and no chunk of the
    deleted one. *)
Theorem delete_removes_exactly_the_document
    (env : Env) (file_id : Z) (w : World) :
  ∃ w' : World,
    delete_doc_from_chroma file_id w = (Return true, w') ∧
    vectorstore w' = filter (λ r, ¬ where_file_id file_id r) (vectorstore w) ∧
    (∀ r, r ∈ vectorstore w' ↔ r ∈ vectorstore w ∧ ¬ where_file_id file_id r) ∧
    ∀ (query : string) (q : Vector) (k : nat),
      embed env query = Return q →
      (length (vectorstore w') ≤ k)%nat →
      ∃ docs,
        similarity_search env query k w' = (Return docs, w') ∧
        docs ≡ₚ document <$> filter (λ r, ¬ where_file_id file_id r) (vectorstore w) ∧
        Forall (λ d, metadata d !! "file_id" ≠ Some (MInt file_id)) docs ∧
        ∀ r, r ∈ vectorstore w → ¬ where_file_id file_id r → document r ∈ docs.
Proof.
  set (w' := set_vectorstore
                (filter (λ r, ¬ where_file_id file_id r) (vectorstore w))
                (next_record_id w) w).
  exists w'. split; [apply delete_doc_from_chroma_run|].
  split; [done|]. split.
  { intros r. simpl. rewrite list_elem_of_filter. tauto. }
  intros query q k Hq Hk.
  destruct (similarity_search_all env query q k w' Hq Hk) as (docs & Hrun & Hperm).
  simpl in Hperm. exists docs. split; [done|]. split; [done|]. split.
  - rewrite Hperm. apply Forall_fmap, Forall_forall.
    intros r [Hr _]%list_elem_of_filter. exact Hr.
  - intros r Hin Hr. rewrite Hperm. apply list_elem_of_fmap_2.
    by apply list_elem_of_filter.
Qed.

(** Deleting document 1 from an index with chunks of documents 1 and 2: a
    search for three results returns the chunk of document 2 and no chunk
    of document 1. *)
Lemma delete_removes_exactly_the_document_witness :
  ∃ (w' : World) (docs : list Document),
    delete_doc_from_chroma 1 Demo.two_docs = (Return true, w') ∧
    similarity_search Demo.env "xy" 3 w' = (Return docs, w') ∧
    Forall (λ d, metadata d !! "file_id" ≠ Some (MInt 1)) docs ∧
    Demo.doc "bcd" 2 ∈ docs.
Proof.
  destruct (delete_removes_exactly_the_document Demo.env 1 Demo.two_docs)
    as (w' & Hrun & Hstore & _ & Hsearch).
  destruct (Hsearch "xy" [2%Q] 3%nat eq_refl) as (docs & Hs & _ & Hnone & Hall).
  { rewrite Hstore. vm_compute. lia. }
  exists w', docs. repeat split; try done.
  apply (Hall (mkRecord 1 [3%Q] (Demo.doc "bcd" 2))).
  - simpl. apply list_elem_of_further, list_elem_of_here.
  - vm_compute. discriminate.
Defined.

(** C7: deleting a document of which the index holds no record returns
    [True] and changes nothing; so of two deletions in a row both return
    [True] and the second leaves the index as the first left it. *)
Theorem delete_idempotent (file_id : Z) (w : World) :
  (Forall (λ r, ¬ where_file_id file_id r) (vectorstore w) →
   delete_doc_from_chroma file_id w = (Return true, w)) ∧
  ∃ w1 : World,
    delete_doc_from_chroma file_id w = (Return true, w1) ∧
    delete_doc_from_chroma file_id w1 = (Return true, w1).
Proof.
  assert (∀ v, Forall (λ r, ¬ where_file_id file_id r) (vectorstore v) →
               delete_doc_from_chroma file_id v = (Return true, v)) as Hnoop.
  { intros v Hv. rewrite delete_doc_from_chroma_run, filter_all by done.
    by destruct v. }
  split; [apply Hnoop|].
  eexists. split; [apply delete_doc_from_chroma_run|].
  apply Hnoop. simpl. apply Forall_forall.
  intros r [Hr _]%list_elem_of_filter. exact Hr.
Qed.

(** No record of document 5 is in the index: deleting it changes nothing.
    Deleting document 1 twice: the second deletion changes nothing. *)
Lemma delete_idempotent_witness :
  delete_doc_from_chroma 5 Demo.two_docs = (Return true, Demo.two_docs) ∧
  ∃ w1 : World,
    delete_doc_from_chroma 1 Demo.two_docs = (Return true, w1) ∧
    delete_doc_from_chroma 1 w1 = (Return true, w1).
Proof.
  split.
  - apply (proj1 (delete_idempotent 5 Demo.two_docs)).
    repeat constructor; vm_compute; discriminate.
  - apply (proj2 (delete_idempotent 1 Demo.two_docs)).
Defined.

(** ** Retrieval and generation *)

(** C8: for every question the chain retrieves with k = 2 (the two nearest
    chunks in rank order), joins their texts with the paragraph separator
    (two newlines) into the context, sends the model the fixed system
    instruction, the context and the question at temperature 0, and returns
    the completion text unchanged under the key "answer"; a failing
    retrieval or model call propagates. *)
Theorem answer_pipeline
    (env : Env) (model question : string) (w : World) :
  ∃ retrieved : outcome (list Document),
    similarity_search env question 2 w = (retrieved, w) ∧
    (∀ q, embed env question = Return q →
          retrieved = Return (document <$> take 2 (rank env q (vectorstore w)))) ∧
    get_rag_chain env model question w =
      (obind retrieved (λ docs,
         obind
           (llm_invoke env model 0%Q
              [ SystemMessage
                  "You are a helpful AI assistant. Use the provided context to answer questions.";
                SystemMessage
                  ("Context:" +:+
                   String newline
                     (PyStr.join (String newline (String newline ""))
                                 (page_content <$> docs)));
                HumanMessage question ])
           (λ completion, Return {[ "answer" := completion ]})),
       w).
Proof.
  unfold get_rag_chain, rag_chain, similarity_search, retriever_k, format_docs,
    prompt, bind, lift, gets, ret.
  destruct (embed env question) as [q|e]; simpl.
  - eexists. split; [reflexivity|]. split; [by intros ? [= <-]|].
    simpl. by destruct (llm_invoke _ _ _ _).
  - eexists. split; [reflexivity|]. split; [by intros ? [=]|]. done.
Qed.

(** With a model that echoes its prompt, the answer shows the wiring: the
    two chunks nearest to the question, in rank order, between the system
    instruction and the question. *)
Lemma answer_pipeline_witness :
  get_rag_chain Demo.env "gemini-2.5-flash" "xy" Demo.two_docs =
    (Return {[ "answer" :=
       "You are a helpful AI assistant. Use the provided context to answer questions."
       +:+ "|Context:" +:+ String newline ("ef" +:+ paragraph_sep +:+ "a") +:+ "|xy" ]},
     Demo.two_docs).
Proof.
  destruct (answer_pipeline Demo.env "gemini-2.5-flash" "xy" Demo.two_docs)
    as (retrieved & _ & Hdocs & ->).
  rewrite (Hdocs [2%Q] eq_refl). vm_compute. reflexivity.
Defined.

(** ** Strings: suffixes, the last dot, and [splitext] *)

Module PyStrFacts.
Import PyStr.

Lemma app_cons c s t : String c s +:+ t = String c (s +:+ t).
Proof. reflexivity. Qed.

Lemma app_nil_l t : "" +:+ t = t.
Proof. reflexivity. Qed.

Lemma app_nil_r s : s +:+ "" = s.
Proof. induction s as [|x s IH]; [done|]. by rewrite app_cons, IH. Qed.

Lemma app_assoc a b c : (a +:+ b) +:+ c = a +:+ b +:+ c.
Proof. induction a as [|x a IH]; [done|]. by rewrite !app_cons, IH. Qed.

Lemma length_app a b :
  String.length (a +:+ b) = (String.length a + String.length b)%nat.
Proof. induction a as [|x a IH]; [done|]. rewrite app_cons. simpl. by rewrite IH. Qed.

Lemma take_drop n s : take n s +:+ drop n s = s.
Proof.
  revert s. induction n as [|n IH]; intros [|c s]; simpl; try done.
  by rewrite app_cons, IH.
Qed.

Lemma drop_app_length a b : drop (String.length a) (a +:+ b) = b.
Proof. induction a as [|x a IH]; [done|]. by rewrite app_cons. Qed.

Lemma endswith_true s suffix :
  endswith s suffix = true ↔ ∃ pre, s = pre +:+ suffix.
Proof.
  unfold endswith. split.
  - case_match; [|done]. intros Heq%String.eqb_eq.
    exists (take (String.length s - String.length suffix) s).
    rewrite <- Heq at 2. by rewrite take_drop.
  - intros [pre ->]. rewrite length_app.
    rewrite (proj2 (Nat.leb_le _ _)) by lia.
    replace (String.length pre + String.length suffix - String.length suffix)%nat
      with (String.length pre) by lia.
    rewrite drop_app_length. apply String.eqb_refl.
Qed.

Lemma occurs_app c a b : occurs c (a +:+ b) = occurs c a || occurs c b.
Proof.
  induction a as [|x a IH]; [done|]. rewrite app_cons. simpl.
  by rewrite IH, orb_assoc.
Qed.

(** A string has one last occurrence of a character. *)
Lemma last_occurrence_unique c a b r t :
  occurs c r = false → occurs c t = false →
  a +:+ String c r = b +:+ String c t → a = b ∧ r = t.
Proof.
  intros Hr Ht. revert b.
  induction a as [|x a IH]; intros [|y b]; rewrite ?app_cons, ?app_nil_l.
  - by intros [= ->].
  - intros [= <- ->]. rewrite occurs_app in Hr. simpl in Hr.
    rewrite Ascii.eqb_refl in Hr. simpl in Hr. by rewrite orb_true_r in Hr.
  - intros [= -> <-]. rewrite occurs_app in Ht. simpl in Ht.
    rewrite Ascii.eqb_refl in Ht. simpl in Ht. by rewrite orb_true_r in Ht.
  - intros [= -> Heq]. destruct (IH _ Heq) as [-> ->]. done.
Qed.

(** [rfind] finds the last occurrence, and -1 means there is none. *)
Lemma rfind_ge c s : -1 ≤ rfind c s.
Proof. induction s as [|a s IH]; simpl; [lia|]. repeat case_match; lia. Qed.

Lemma rfind_none c s : rfind c s < 0 → occurs c s = false.
Proof.
  induction s as [|a s IH]; simpl; [done|].
  destruct (0 <=? rfind c s) eqn:Hr; [lia|].
  destruct (Ascii.eqb a c); [lia|]. intros _. apply IH. lia.
Qed.

Lemma rfind_last c s :
  0 ≤ rfind c s →
  ∃ rest, drop (Z.to_nat (rfind c s)) s = String c rest ∧ occurs c rest = false.
Proof.
  induction s as [|a s IH]; simpl; [lia|].
  destruct (0 <=? rfind c s) eqn:Hr.
  - intros _. apply Z.leb_le in Hr. destruct (IH Hr) as (rest & Hd & Hrest).
    exists rest. split; [|done].
    replace (Z.to_nat (rfind c s + 1)) with (S (Z.to_nat (rfind c s))) by lia.
    done.
  - apply Z.leb_gt in Hr. destruct (Ascii.eqb a c) eqn:Hac; [|lia].
    intros _. apply Ascii.eqb_eq in Hac as ->. exists s.
    split; [done|]. by apply rfind_none.
Qed.

(** [splitext] cuts the path in two, and a non-empty extension starts at
    the path's last dot. *)
Lemma splitext_app p : (splitext p).1 +:+ (splitext p).2 = p.
Proof.
  unfold splitext. repeat case_match; simpl;
    apply take_drop || apply app_nil_r.
Qed.

Lemma splitext_ext p :
  (splitext p).2 ≠ "" →
  ∃ rest, (splitext p).2 = String "." rest ∧ occurs "." rest = false.
Proof.
  unfold splitext.
  destruct (rfind "/" p <? rfind "." p) eqn:Hlt; [|done].
  case_match; [|done]. simpl. intros _.
  apply rfind_last. apply Z.ltb_lt in Hlt.
  pose proof (rfind_ge "/" p). lia.
Qed.

(** A path whose extension is not the suffix [String "." t] does not end
    with that suffix either, whatever directory is put in front. *)
Lemma endswith_splitext dir filename t :
  occurs "." t = false →
  (splitext filename).2 ≠ "" →
  (splitext filename).2 ≠ String "." t →
  endswith (dir +:+ filename) (String "." t) = false.
Proof.
  intros Ht Hne Hext. apply not_true_is_false. intros [pre Hpre]%endswith_true.
  destruct (splitext_ext filename Hne) as (rest & He & Hrest).
  rewrite <- (splitext_app filename), He, <- app_assoc in Hpre.
  apply last_occurrence_unique in Hpre as [_ ->]; [|done..].
  by rewrite He in Hext.
Qed.

(** Two suffixes with different text after their dot exclude each other. *)
Lemma endswith_exclusive s r t :
  occurs "." r = false → occurs "." t = false → r ≠ t →
  endswith s (String "." r) = true → endswith s (String "." t) = false.
Proof.
  intros Hr Ht Hne [a ->]%endswith_true.
  apply not_true_is_false. intros [b Hb]%endswith_true.
  by apply last_occurrence_unique in Hb as [_ ->].
Qed.

Lemma lower_length s : String.length (lower s) = String.length s.
Proof. induction s as [|c s IH]; simpl; by rewrite ?IH. Qed.

End PyStrFacts.

(** ** Chunking *)

Lemma split_go_short fuel text :
  (String.length text ≤ chunk_size)%nat → Chunker.split_go fuel text = [text].
Proof.
  intros Hlen%Nat.leb_le. destruct fuel; unfold Chunker.split_go; by rewrite Hlen.
Qed.

Lemma str_length_take n s : String.length (PyStr.take n s) = (n `min` String.length s)%nat.
Proof.
  revert s. induction n as [|n IH]; intros [|c s]; simpl; try done.
  by rewrite IH.
Qed.

Lemma str_length_drop n s : String.length (PyStr.drop n s) = (String.length s - n)%nat.
Proof. revert s. induction n as [|n IH]; intros [|c s]; simpl; try done. Qed.

Lemma last_boundary_range boundary lo n k :
  Chunker.last_boundary boundary lo n = Some k → (lo < k ≤ lo + n)%nat.
Proof.
  induction n as [|n IH]; simpl; [done|].
  case_match; [intros [= <-]; lia|]. intros Hk%IH. lia.
Qed.

Lemma cut_point_range text :
  (chunk_overlap < Chunker.cut_point text ≤ chunk_size)%nat.
Proof.
  unfold Chunker.cut_point.
  repeat case_match;
    try match goal with
        | H : Chunker.last_boundary _ _ _ = Some _ |- _ =>
            apply last_boundary_range in H; revert H
        end;
    unfold chunk_overlap, chunk_size; lia.
Qed.

(** The fuel given by [split_text] is never used up: no chunk is longer
    than [chunk_size]. *)
Lemma split_go_chunk_size fuel text :
  (String.length text ≤ chunk_size + fuel)%nat →
  Forall (λ chunk, (String.length chunk ≤ chunk_size)%nat)
         (Chunker.split_go fuel text).
Proof.
  revert text. induction fuel as [|fuel IH]; intros text Hlen;
    unfold Chunker.split_go; fold Chunker.split_go;
    destruct (String.length text <=? chunk_size)%nat eqn:Hfit.
  - apply Nat.leb_le in Hfit. constructor; [done|constructor].
  - apply Nat.leb_gt in Hfit. lia.
  - apply Nat.leb_le in Hfit. constructor; [done|constructor].
  - apply Nat.leb_gt in Hfit.
    pose proof (cut_point_range text) as Hcut. constructor.
    + rewrite str_length_take. lia.
    + apply IH. rewrite str_length_drop. lia.
Qed.

Lemma split_text_chunk_size text :
  Forall (λ chunk, (String.length chunk ≤ chunk_size)%nat) (split_text text).
Proof. apply split_go_chunk_size. lia. Qed.

Lemma split_documents_contents documents :
  page_content <$> split_documents documents =
  documents ≫= (λ d, split_text (page_content d)).
Proof.
  unfold split_documents. induction documents as [|d ds IH]; [done|].
  rewrite !bind_cons, fmap_app, IH. f_equal.
  rewrite <- list_fmap_compose. apply list_fmap_id.
Qed.

Section Loading.

Variable env : Env.

(** The branch of [load_and_split_document] taken by a path that ends
    with ".txt". *)
Lemma load_and_split_document_txt file_path w :
  PyStr.endswith file_path ".txt" = true →
  load_and_split_document env file_path w =
    (text <- read_text env file_path ;;
     ret ((λ chunk, mkDocument chunk {[ "source" := MStr file_path ]})
            <$> split_text text)) w.
Proof.
  intros Htxt. unfold load_and_split_document.
  rewrite (PyStrFacts.endswith_exclusive file_path "txt" "pdf") by done.
  rewrite (PyStrFacts.endswith_exclusive file_path "txt" "docx") by done.
  rewrite (PyStrFacts.endswith_exclusive file_path "txt" "html") by done.
  by rewrite Htxt.
Qed.

Lemma load_and_split_document_txt_Return file_path w text :
  PyStr.endswith file_path ".txt" = true →
  read_text env file_path w = (Return text, w) →
  load_and_split_document env file_path w =
    (Return ((λ chunk, mkDocument chunk {[ "source" := MStr file_path ]})
               <$> split_text text), w).
Proof.
  intros Htxt Hread. rewrite load_and_split_document_txt by done.
  by erewrite bind_Return by exact Hread.
Qed.

End Loading.

(** C6: a text file whose text is not empty and shorter than 1000
    characters is split into exactly one chunk, and the chunk's text is the
    file's text. *)
Theorem short_text_is_one_chunk
    (env : Env) (file_path : string) (w : World) (text : string) :
  PyStr.endswith file_path ".txt" = true →
  read_text env file_path w = (Return text, w) →
  text ≠ "" →
  (String.length text < 1000)%nat →
  split_text text = [text] ∧
  load_and_split_document env file_path w =
    (Return [mkDocument text {[ "source" := MStr file_path ]}], w).
Proof.
  intros Htxt Hread _ Hlen.
  assert (split_text text = [text]) as Hsplit.
  { apply split_go_short. unfold chunk_size. lia. }
  split; [done|].
  erewrite load_and_split_document_txt_Return by done. by rewrite Hsplit.
Qed.

Lemma short_text_is_one_chunk_witness :
  split_text "Alpha" = ["Alpha"] ∧
  load_and_split_document Demo.env "uploads/a.txt" Demo.one_file =
    (Return [mkDocument "Alpha" {[ "source" := MStr "uploads/a.txt" ]}],
     Demo.one_file).
Proof.
  apply (short_text_is_one_chunk Demo.env "uploads/a.txt" Demo.one_file "Alpha");
    [reflexivity | reflexivity | discriminate | simpl; lia].
Defined.

(** ** Unsupported and upper-case extensions *)

Lemma elem_of_allowed_extensions (x : string) :
  x ∈ allowed_extensions ↔ x = ".pdf" ∨ x = ".docx" ∨ x = ".html" ∨ x = ".txt".
Proof.
  unfold allowed_extensions. rewrite !elem_of_union, !elem_of_singleton. tauto.
Qed.

(** Closes a goal from a hypothesis that puts a closed string other than the
    four extensions into [allowed_extensions]. *)
Ltac not_allowed H :=
  apply elem_of_allowed_extensions in H; vm_compute in H;
  destruct H as [?|[?|[?|?]]]; discriminate.

Section Rejection.

Variable env : Env.

Lemma load_and_split_document_unsupported file_path w :
  has_loader file_path = false →
  load_and_split_document env file_path w =
    (Raise (ValueError ("Unsupported file type: " +:+ file_path)), w).
Proof.
  unfold has_loader. rewrite !orb_false_iff. intros [[[Hpdf Hdocx] Hhtml] Htxt].
  unfold load_and_split_document. by rewrite Hpdf, Hdocx, Hhtml, Htxt.
Qed.

Lemma index_document_to_chroma_unsupported file_path file_id w :
  has_loader file_path = false →
  index_document_to_chroma env file_path file_id w = (Return false, w).
Proof.
  intros Hno. unfold index_document_to_chroma.
  erewrite try_except_Raise; [reflexivity|].
  erewrite bind_Raise; [reflexivity|].
  by apply load_and_split_document_unsupported.
Qed.

(** Once the components can be imported, or are loaded already,
    [lazy_load_rag] leaves [RAG_ENABLED] set and touches nothing else. *)
Lemma lazy_load_rag_available w :
  RAG_ENABLED w = true ∨ rag_import env = Return tt →
  lazy_load_rag env w = (Return tt, set_RAG_ENABLED true w).
Proof.
  unfold lazy_load_rag, bind, gets, try_except, lift, modify, ret.
  destruct (RAG_ENABLED w) eqn:Hen.
  - intros _. f_equal. destruct w; simpl in *; by subst.
  - intros [?| ->]; done.
Qed.

(** A name whose extension has an upper-case letter where a supported
    extension has its lower-case one is accepted by the endpoint's check,
    and the loader's dispatch has no branch for the saved path. *)
Lemma uppercase_extension_has_no_loader filename :
  PyStr.lower (PyStr.splitext filename).2 ∈ allowed_extensions →
  (PyStr.splitext filename).2 ∉ allowed_extensions →
  has_loader ("uploads/" +:+ filename) = false.
Proof.
  intros Hlow Hext.
  assert ((PyStr.splitext filename).2 ≠ "") as Hne.
  { intros Heq. rewrite Heq in Hlow. not_allowed Hlow. }
  unfold has_loader.
  rewrite !PyStrFacts.endswith_splitext; try done.
  all: intros Heq; apply Hext; rewrite Heq;
    apply elem_of_allowed_extensions; tauto.
Qed.

End Rejection.

(** C3: a file whose extension is not one of .pdf, .docx, .html, .txt is
    rejected and the vector index is left as it was.  The endpoint answers
    with the error 400 "Unsupported file type" that carries the rejected
    extension, before anything is saved, recorded or indexed; and for a path
    that ends in none of the four suffixes the loader raises "Unsupported
    file type", so that ingestion returns [False] and adds no record. *)
Theorem unsupported_extension_rejected
    (env : Env) (filename contents file_path : string) (file_id : Z) (w : World) :
  RAG_ENABLED w = true ∨ rag_import env = Return tt →
  filename ≠ "" →
  file_ext filename ∉ allowed_extensions →
  has_loader file_path = false →
  upload_document env filename contents w =
    (Raise (HTTPException 400
       ("Unsupported file type: " +:+ file_ext filename +:+ ". Allowed: " +:+
        PyStr.join ", " (allowed_extensions_iter env))),
     set_RAG_ENABLED true w) ∧
  load_and_split_document env file_path w =
    (Raise (ValueError ("Unsupported file type: " +:+ file_path)), w) ∧
  index_document_to_chroma env file_path file_id w = (Return false, w).
Proof.
  intros Hrag Hname Hext Hno. split; [|split].
  - unfold upload_document. unfold try_except at 1.
    erewrite bind_Return by (by apply lazy_load_rag_available).
    unfold bind, gets. simpl.
    apply String.eqb_neq in Hname. rewrite Hname.
    by rewrite bool_decide_eq_false_2.
  - by apply load_and_split_document_unsupported.
  - by apply index_document_to_chroma_unsupported.
Qed.

Lemma unsupported_extension_rejected_witness :
  upload_document Demo.env "file.xyz" "The sky is blue." Demo.two_docs =
    (Raise (HTTPException 400
       "Unsupported file type: .xyz. Allowed: .txt, .pdf, .html, .docx"),
     Demo.two_docs) ∧
  load_and_split_document Demo.env "uploads/file.xyz" Demo.two_docs =
    (Raise (ValueError "Unsupported file type: uploads/file.xyz"), Demo.two_docs) ∧
  index_document_to_chroma Demo.env "uploads/file.xyz" 3 Demo.two_docs =
    (Return false, Demo.two_docs).
Proof.
  apply (unsupported_extension_rejected Demo.env "file.xyz" "The sky is blue."
           "uploads/file.xyz" 3 Demo.two_docs).
  - by left.
  - discriminate.
  - intros H. not_allowed H.
  - reflexivity.
Defined.

(** The run of [upload_document] for a file that passes the checks and is
    saved: the row is recorded, the path indexed, and the row removed again
    if indexing does not succeed. *)
Lemma upload_document_accepted env filename contents w :
  RAG_ENABLED w = true ∨ rag_import env = Return tt →
  filename ≠ "" →
  file_ext filename ∈ allowed_extensions →
  makedirs_uploads env = Return tt →
  open_wb env ("uploads/" +:+ filename) = Return tt →
  let file_path := "uploads/" +:+ filename in
  let file_id := document_store_seq w + 1 in
  let w2 := set_document_store (document_store w ++ [(file_id, filename)]) file_id
              (set_files (<[ file_path := contents ]> (files w))
                 (set_RAG_ENABLED true w)) in
  let unrecord w3 :=
    set_document_store (filter (λ row, row.1 ≠ file_id) (document_store w3))
                       (document_store_seq w3) w3 in
  upload_document env filename contents w =
    match index_document_to_chroma env file_path file_id w2 with
    | (Return true, w3) =>
        (Return (mkUploadResponse "Document uploaded and indexed successfully"
                                  file_id filename), w3)
    | (Return false, w3) =>
        (Raise (HTTPException 400 "Failed to index document"), unrecord w3)
    | (Raise e, w3) =>
        (Raise (HTTPException 500 ("Error indexing document: " +:+ exn_str e)),
         unrecord w3)
    end.
Proof.
  intros Hrag Hname%String.eqb_neq Hext Hmk Hopen. cbv zeta.
  cbv beta iota zeta delta [upload_document try_except bind gets lift modify ret
    raise insert_document_record delete_document_record].
  rewrite lazy_load_rag_available by done.
  cbv beta iota delta [RAG_ENABLED set_RAG_ENABLED negb].
  rewrite Hname, bool_decide_eq_true_2 by done.
  cbv beta iota. rewrite Hmk. cbv beta iota. rewrite Hopen.
  cbv beta iota delta [document_store_seq document_store set_files files].
  destruct (index_document_to_chroma _ _ _ _) as [[[]|e] w3]; reflexivity.
Qed.

(** C10: the endpoint's check lower-cases the extension and the loader's
    dispatch does not.  So for every file name whose extension is a
    supported one with some letter in upper case, the check passes, the
    loader raises "Unsupported file type" for the saved path, ingestion
    returns [False], and, when the file could be saved, the upload ends with
    the error 400 "Failed to index document" and an unchanged index. *)
Theorem uppercase_extension_fails_indexing
    (env : Env) (filename contents : string) (w : World) :
  PyStr.lower (PyStr.splitext filename).2 ∈ allowed_extensions →
  (PyStr.splitext filename).2 ∉ allowed_extensions →
  file_ext filename ∈ allowed_extensions ∧
  (∀ (w1 : World) (file_id : Z),
     load_and_split_document env ("uploads/" +:+ filename) w1 =
       (Raise (ValueError ("Unsupported file type: " +:+ "uploads/" +:+ filename)), w1) ∧
     index_document_to_chroma env ("uploads/" +:+ filename) file_id w1 =
       (Return false, w1)) ∧
  (RAG_ENABLED w = true ∨ rag_import env = Return tt →
   makedirs_uploads env = Return tt →
   open_wb env ("uploads/" +:+ filename) = Return tt →
   ∃ w' : World,
     upload_document env filename contents w =
       (Raise (HTTPException 400 "Failed to index document"), w') ∧
     vectorstore w' = vectorstore w ∧
     files w' = <[ "uploads/" +:+ filename := contents ]> (files w)).
Proof.
  intros Hlow Hext.
  pose proof (uppercase_extension_has_no_loader filename Hlow Hext) as Hno.
  split; [exact Hlow|]. split.
  { intros w1 file_id. split.
    - by apply load_and_split_document_unsupported.
    - by apply index_document_to_chroma_unsupported. }
  intros Hrag Hmk Hopen.
  assert (filename ≠ "") as Hname.
  { intros ->. not_allowed Hlow. }
  rewrite upload_document_accepted by done.
  rewrite index_document_to_chroma_unsupported by exact Hno.
  eexists. split; [reflexivity|]. split; reflexivity.
Qed.

Lemma uppercase_extension_fails_indexing_witness :
  file_ext "notes.TXT" ∈ allowed_extensions ∧
  index_document_to_chroma Demo.env "uploads/notes.TXT" 1 Demo.two_docs
    = (Return false, Demo.two_docs) ∧
  ∃ w' : World,
    upload_document Demo.env "notes.TXT" "The sky is blue." Demo.start =
      (Raise (HTTPException 400 "Failed to index document"), w') ∧
    vectorstore w' = [].
Proof.
  destruct (uppercase_extension_fails_indexing Demo.env "notes.TXT"
              "The sky is blue." Demo.start) as (Hcheck & Hloader & Hupload).
  - apply elem_of_allowed_extensions. vm_compute. tauto.
  - intros H. not_allowed H.
  - split; [exact Hcheck|]. split; [apply Hloader|].
    destruct Hupload as (w' & Hrun & Hindex & _); [by right|done..|].
    exists w'. by split.
Defined.

(* ===================================================================== *)
(** * Further properties of the endpoints and the ingestion code *)
(* ===================================================================== *)

(** ** What a successful ingestion leaves *)

(** A run that returns [True] changes the vector index and nothing else. *)
Lemma index_document_to_chroma_true env file_path file_id w w' :
  index_document_to_chroma env file_path file_id w = (Return true, w') →
  ∃ splits new,
    load_and_split_document env file_path w = (Return splits, w) ∧
    document <$> new = tag_file_id file_id splits ∧
    w' = set_vectorstore (vectorstore w ++ new)
                         (next_record_id w + length splits)%nat w.
Proof.
  intros Hrun.
  destruct (index_document_to_chroma_cases env file_path file_id w)
    as [(splits & w1 & Hload & Hadd & Hrun')
       |[(splits & e & _ & _ & Hrun')|(e & _ & Hrun')]];
    rewrite Hrun' in Hrun; simplify_eq.
  destruct (add_documents_cases env (tag_file_id file_id splits) w)
    as [(vecs & Hv & Hadd')|(e & _ & Hadd')]; rewrite Hadd' in Hadd; simplify_eq.
  eexists splits, _. split; [done|]. split.
  - apply new_records_document. apply omap_length in Hv.
    by rewrite Hv, length_fmap.
  - unfold tag_file_id. by rewrite length_fmap.
Qed.

Lemma fmap_Forall2 {A B} (f : A → B) (P : A → B → Prop) l :
  (∀ x, P x (f x)) → Forall2 P l (f <$> l).
Proof. intros HP. induction l; constructor; auto. Qed.

(** X19: a successful ingestion stores every chunk the loader produced, in
    order, with its text and with all of its metadata except that the key
    "file_id" now holds the document identifier. *)
Theorem ingest_keeps_loader_metadata
    (env : Env) (file_path : string) (file_id : Z) (w w' : World) :
  index_document_to_chroma env file_path file_id w = (Return true, w') →
  ∃ splits new,
    load_and_split_document env file_path w = (Return splits, w) ∧
    vectorstore w' = vectorstore w ++ new ∧
    Forall2 (λ split r,
               page_content (document r) = page_content split ∧
               metadata (document r) !! "file_id" = Some (MInt file_id) ∧
               ∀ key, key ≠ "file_id" →
                      metadata (document r) !! key = metadata split !! key)
            splits new.
Proof.
  intros (splits & new & Hload & Hdocs & ->)%index_document_to_chroma_true.
  exists splits, new. split; [done|]. split; [done|].
  assert (Forall2 (λ split d,
            page_content d = page_content split ∧
            metadata d !! "file_id" = Some (MInt file_id) ∧
            ∀ key, key ≠ "file_id" → metadata d !! key = metadata split !! key)
          splits (document <$> new)) as H.
  { rewrite Hdocs. apply fmap_Forall2. intros split. simpl.
    split; [done|]. split; [apply lookup_insert_eq|].
    intros key Hkey. by apply lookup_insert_ne. }
  by apply Forall2_fmap_r in H.
Qed.

Lemma ingest_keeps_loader_metadata_witness :
  ∃ splits new,
    load_and_split_document Demo.env "uploads/a.txt" Demo.one_file
      = (Return splits, Demo.one_file) ∧
    vectorstore (index_document_to_chroma Demo.env "uploads/a.txt" 1 Demo.one_file).2
      = vectorstore Demo.one_file ++ new ∧
    Forall2 (λ split r,
               page_content (document r) = page_content split ∧
               metadata (document r) !! "file_id" = Some (MInt 1) ∧
               ∀ key, key ≠ "file_id" →
                      metadata (document r) !! key = metadata split !! key)
            splits new.
Proof.
  apply (ingest_keeps_loader_metadata Demo.env "uploads/a.txt" 1 Demo.one_file).
  vm_compute. reflexivity.
Defined.

(** X20: every record that a successful ingestion of a path ending in
    ".txt" appends has as its metadata exactly the source path and the
    document identifier, and the file was there to be read. *)
Theorem ingest_text_file_metadata
    (env : Env) (file_path : string) (file_id : Z) (w w' : World) :
  PyStr.endswith file_path ".txt" = true →
  index_document_to_chroma env file_path file_id w = (Return true, w') →
  (∃ text, read_text env file_path w = (Return text, w)) ∧
  ∃ new,
    vectorstore w' = vectorstore w ++ new ∧
    Forall (λ r, metadata (document r) =
                   {[ "source" := MStr file_path; "file_id" := MInt file_id ]})
           new.
Proof.
  intros Htxt (splits & new & Hload & Hdocs & ->)%index_document_to_chroma_true.
  rewrite load_and_split_document_txt in Hload by done.
  unfold bind in Hload.
  destruct (read_text env file_path w) as [[text|e] w1] eqn:Hread; [|done].
  assert (w1 = w) as ->.
  { revert Hread. unfold read_text, bind, gets, raise, lift.
    repeat case_match; intros ?; by simplify_eq. }
  injection Hload as <-.
  split; [by exists text|]. exists new. split; [done|].
  assert (Forall (λ d, metadata d =
                    {[ "source" := MStr file_path; "file_id" := MInt file_id ]})
                 (document <$> new)) as Hmeta.
  { rewrite Hdocs. unfold tag_file_id. rewrite <- list_fmap_compose.
    apply Forall_fmap, Forall_forall. intros chunk _. reflexivity. }
  by apply Forall_fmap in Hmeta.
Qed.

Lemma ingest_text_file_metadata_witness :
  (∃ text, read_text Demo.env "uploads/a.txt" Demo.one_file
             = (Return text, Demo.one_file)) ∧
  ∃ new,
    vectorstore (index_document_to_chroma Demo.env "uploads/a.txt" 7 Demo.one_file).2
      = vectorstore Demo.one_file ++ new ∧
    Forall (λ r, metadata (document r) =
                   {[ "source" := MStr "uploads/a.txt"; "file_id" := MInt 7 ]})
           new.
Proof.
  apply (ingest_text_file_metadata Demo.env "uploads/a.txt" 7 Demo.one_file).
  - reflexivity.
  - vm_compute. reflexivity.
Defined.

(** X21: ingesting a path that ends in ".txt" but names no file of the
    upload directory returns [False] and changes nothing. *)
Theorem ingest_missing_text_file
    (env : Env) (file_path : string) (file_id : Z) (w : World) :
  PyStr.endswith file_path ".txt" = true →
  files w !! file_path = None →
  load_and_split_document env file_path w =
    (Raise (FileNotFoundError file_path), w) ∧
  index_document_to_chroma env file_path file_id w = (Return false, w).
Proof.
  intros Htxt Hnone.
  assert (load_and_split_document env file_path w =
            (Raise (FileNotFoundError file_path), w)) as Hload.
  { rewrite load_and_split_document_txt by done.
    unfold read_text, bind, gets, raise. by rewrite Hnone. }
  split; [done|].
  unfold index_document_to_chroma. erewrite try_except_Raise; [reflexivity|].
  by erewrite bind_Raise.
Qed.

Lemma ingest_missing_text_file_witness :
  load_and_split_document Demo.env "uploads/gone.txt" Demo.two_docs =
    (Raise (FileNotFoundError "uploads/gone.txt"), Demo.two_docs) ∧
  index_document_to_chroma Demo.env "uploads/gone.txt" 3 Demo.two_docs
    = (Return false, Demo.two_docs).
Proof.
  apply (ingest_missing_text_file Demo.env "uploads/gone.txt" 3 Demo.two_docs);
    reflexivity.
Defined.

(** ** The upload endpoint, path by path *)

Lemma index_document_to_chroma_no_raise env file_path file_id w e w' :
  index_document_to_chroma env file_path file_id w ≠ (Raise e, w').
Proof.
  intros Hrun.
  destruct (index_document_to_chroma_cases env file_path file_id w)
    as [(? & ? & _ & _ & Hrun')|[(? & ? & _ & _ & Hrun')|(? & _ & Hrun')]];
    rewrite Hrun' in Hrun; discriminate.
Qed.

(** Every run of [upload_document] is of one of three kinds: it is refused
    or fails before anything is recorded (only [RAG_ENABLED] may have
    changed); or the file is saved and recorded, indexing returns [False],
    and the row is removed again; or indexing returns [True]. *)
Lemma upload_document_cases env filename contents w :
  ∃ b : bool,
    (∃ e,
       upload_document env filename contents w = (Raise e, set_RAG_ENABLED b w) ∧
       ((b = false ∧ e = HTTPException 503
           "Document upload is not available. RAG features not initialized.") ∨
        (filename = "" ∧ e = HTTPException 400 "No file provided") ∨
        ((file_ext filename ∉ allowed_extensions) ∧
         e = HTTPException 400
               ("Unsupported file type: " +:+ file_ext filename +:+ ". Allowed: " +:+
                PyStr.join ", " (allowed_extensions_iter env))) ∨
        (∃ e1, makedirs_uploads env = Raise e1 ∧
               e = (match e1 with
                    | HTTPException _ _ => e1
                    | _ => HTTPException 500
                             ("Unexpected error uploading document: " +:+ exn_str e1)
                    end)) ∨
        (∃ e2, open_wb env ("uploads/" +:+ filename) = Raise e2 ∧
               e = HTTPException 500 ("Error saving file: " +:+ exn_str e2)))) ∨
    (b = true ∧ filename ≠ "" ∧ file_ext filename ∈ allowed_extensions ∧
     ∃ w2 success w3,
       w2 = set_document_store
              (document_store w ++ [(document_store_seq w + 1, filename)])
              (document_store_seq w + 1)
              (set_files (<[ "uploads/" +:+ filename := contents ]> (files w))
                 (set_RAG_ENABLED true w)) ∧
       index_document_to_chroma env ("uploads/" +:+ filename)
         (document_store_seq w + 1) w2 = (Return success, w3) ∧
       upload_document env filename contents w =
         if success then
           (Return (mkUploadResponse "Document uploaded and indexed successfully"
                      (document_store_seq w + 1) filename), w3)
         else
           (Raise (HTTPException 400 "Failed to index document"),
            set_document_store
              (filter (λ row, row.1 ≠ document_store_seq w + 1) (document_store w3))
              (document_store_seq w3) w3)).
Proof.
  destruct (lazy_load_rag_run env w) as [b Hlazy]. exists b.
  cbv beta iota zeta delta [upload_document try_except bind gets lift modify ret
    raise insert_document_record delete_document_record].
  rewrite Hlazy.
  cbv beta iota delta [RAG_ENABLED set_RAG_ENABLED negb].
  destruct b; [|left; eexists; split; [reflexivity|]; by left].
  destruct (filename =? "")%string eqn:Hname.
  { apply String.eqb_eq in Hname.
    left; eexists; split; [reflexivity|]. right; left. done. }
  apply String.eqb_neq in Hname.
  destruct (decide (file_ext filename ∈ allowed_extensions)) as [Hext|Hext].
  2:{ rewrite bool_decide_eq_false_2 by done. cbv beta iota delta [negb].
      left; eexists; split; [reflexivity|]. right; right; left. done. }
  rewrite bool_decide_eq_true_2 by done. cbv beta iota delta [negb].
  destruct (makedirs_uploads env) as [[]|e1] eqn:Hmk; cbv beta iota.
  2:{ left. exists (match e1 with
                    | HTTPException _ _ => e1
                    | _ => HTTPException 500
                             ("Unexpected error uploading document: " +:+ exn_str e1)
                    end).
      split; [by destruct e1|]. right; right; right; left. by exists e1. }
  destruct (open_wb env _) as [[]|e2] eqn:Hopen; cbv beta iota.
  2:{ left; eexists; split; [reflexivity|]. do 4 right. by exists e2. }
  right. split; [done|]. split; [done|]. split; [done|].
  cbn [document_store_seq document_store set_files files].
  destruct (index_document_to_chroma _ _ _ _) as [[success|e3] w3] eqn:Hindex.
  - eexists _, success, w3. split; [reflexivity|]. split; [exact Hindex|].
    by destruct success.
  - by apply index_document_to_chroma_no_raise in Hindex.
Qed.

(** X2: whatever goes wrong, [upload_document] raises an [HTTPException];
    unless creating the upload directory itself raises one, its status is
    400, 500 or 503. *)
Theorem upload_document_raises_http
    (env : Env) (filename contents : string) (w : World) (e : exn) (w' : World) :
  (∀ s d, makedirs_uploads env ≠ Raise (HTTPException s d)) →
  upload_document env filename contents w = (Raise e, w') →
  ∃ status detail,
    e = HTTPException status detail ∧ (status = 400 ∨ status = 500 ∨ status = 503).
Proof.
  intros Hmk Hrun.
  destruct (upload_document_cases env filename contents w)
    as [b [(e' & Hrun' & Hearly)|(_ & _ & _ & w2 & success & w3 & _ & _ & Hrun')]];
    rewrite Hrun' in Hrun.
  - injection Hrun as <- <-.
    destruct Hearly as [[_ ->]|[[_ ->]|[[_ ->]|[(e1 & He1 & ->)|(e2 & _ & ->)]]]];
      try (eexists _, _; split; [reflexivity|]; tauto).
    destruct e1; try (eexists _, _; split; [reflexivity|]; tauto).
    by apply Hmk in He1.
  - destruct success; [discriminate|]. injection Hrun as <- <-.
    eexists _, _; split; [reflexivity|]; tauto.
Qed.

Lemma upload_document_raises_http_witness :
  ∃ status detail,
    (upload_document Demo.env "b.txt" "boom" Demo.start).1
      = Raise (HTTPException status detail) ∧
    (status = 400 ∨ status = 500 ∨ status = 503).
Proof.
  destruct (upload_document_raises_http Demo.env "b.txt" "boom" Demo.start
              (HTTPException 400 "Failed to index document")
              (upload_document Demo.env "b.txt" "boom" Demo.start).2)
    as (status & detail & He & Hstatus).
  - discriminate.
  - vm_compute. reflexivity.
  - exists status, detail. split; [|done]. rewrite <- He. vm_compute. reflexivity.
Defined.

(** What a successful run of [upload_document] returns and leaves. *)
Lemma upload_document_Return env filename contents w resp w' :
  upload_document env filename contents w = (Return resp, w') →
  resp = mkUploadResponse "Document uploaded and indexed successfully"
           (document_store_seq w + 1) filename ∧
  file_ext filename ∈ allowed_extensions ∧
  RAG_ENABLED w' = true ∧
  files w' = <[ "uploads/" +:+ filename := contents ]> (files w) ∧
  document_store w' = document_store w ++ [(document_store_seq w + 1, filename)] ∧
  document_store_seq w' = document_store_seq w + 1 ∧
  ∃ new,
    vectorstore w' = vectorstore w ++ new ∧
    Forall (λ r, record_file_id r = Some (MInt (document_store_seq w + 1))) new.
Proof.
  intros Hrun.
  destruct (upload_document_cases env filename contents w)
    as [b [(e' & Hrun' & _)|(_ & _ & Hext & w2 & success & w3 & -> & Hindex & Hrun')]];
    rewrite Hrun' in Hrun; [discriminate|].
  destruct success; [|discriminate]. injection Hrun as <- <-.
  apply index_document_to_chroma_true in Hindex as (splits & new & _ & Hdocs & ->).
  repeat (split; [done|]). exists new. split; [done|].
  pose proof (tag_file_id_tagged (document_store_seq w + 1) splits) as Htag.
  rewrite <- Hdocs in Htag. by apply Forall_fmap in Htag.
Qed.

(** X3: a successful upload answers with the next AUTOINCREMENT identifier
    and the file's name; the name passed the extension check; the file is
    saved under "uploads/", one row is appended to [document_store], and the
    records appended to the index all carry the new identifier. *)
Theorem upload_document_success
    (env : Env) (filename contents : string) (w : World)
    (resp : UploadResponse) (w' : World) :
  upload_document env filename contents w = (Return resp, w') →
  resp = mkUploadResponse "Document uploaded and indexed successfully"
           (document_store_seq w + 1) filename ∧
  file_ext filename ∈ allowed_extensions ∧
  RAG_ENABLED w' = true ∧
  files w' = <[ "uploads/" +:+ filename := contents ]> (files w) ∧
  document_store w' = document_store w ++ [(document_store_seq w + 1, filename)] ∧
  document_store_seq w' = document_store_seq w + 1 ∧
  ∃ new,
    vectorstore w' = vectorstore w ++ new ∧
    Forall (λ r, record_file_id r = Some (MInt (document_store_seq w + 1))) new.
Proof. apply upload_document_Return. Qed.

Lemma upload_document_success_witness :
  ∃ w' : World,
    upload_document Demo.env "sky.txt" "The sky is blue." Demo.two_docs
      = (Return (mkUploadResponse "Document uploaded and indexed successfully"
                   3 "sky.txt"), w') ∧
    files w' !! "uploads/sky.txt" = Some "The sky is blue." ∧
    document_store w' = [(1, "a.txt"); (2, "b.txt"); (3, "sky.txt")] ∧
    ∃ new,
      vectorstore w' = vectorstore Demo.two_docs ++ new ∧
      Forall (λ r, record_file_id r = Some (MInt 3)) new.
Proof.
  destruct (upload_document Demo.env "sky.txt" "The sky is blue." Demo.two_docs)
    as [[resp|e] w'] eqn:Hrun; [|by vm_compute in Hrun].
  destruct (upload_document_success Demo.env "sky.txt" "The sky is blue."
              Demo.two_docs resp w' Hrun)
    as (-> & _ & _ & Hfiles & Hrows & _ & new & Hnew & Htag).
  exists w'. split; [done|]. split; [by rewrite Hfiles|]. split; [done|].
  by exists new.
Defined.



(** X5: the three refusals of [upload_document] have no side effect.  When
    it answers 503, 400 "No file provided" or 400 "Unsupported file type",
    nothing was saved, recorded or indexed: apart from [RAG_ENABLED], the
    world is as before. *)
Theorem upload_refusal_effect
    (env : Env) (filename contents : string) (w : World)
    (status : Z) (detail : string) (w' : World) :
  upload_document env filename contents w =
    (Raise (HTTPException status detail), w') →
  status = 503 ∨ detail = "No file provided" ∨
    (∃ rest, detail = "Unsupported file type: " +:+ rest) →
  ∃ b : bool, w' = set_RAG_ENABLED b w.
Proof.
  intros Hrun Hrefused.
  destruct (upload_document_cases env filename contents w)
    as [b [(e' & Hrun' & _)|(_ & _ & _ & w2 & success & w3 & _ & _ & Hrun')]];
    rewrite Hrun' in Hrun.
  - injection Hrun as _ <-. by exists b.
  - destruct success; [discriminate|]. injection Hrun as <- <- _.
    destruct Hrefused as [?|[?|[rest Hrest]]]; discriminate.
Qed.

Lemma upload_refusal_effect_witness :
  ∃ b : bool,
    (upload_document Demo.env "file.xyz" "The sky is blue." Demo.two_docs).2
      = set_RAG_ENABLED b Demo.two_docs.
Proof.
  apply (upload_refusal_effect Demo.env "file.xyz" "The sky is blue." Demo.two_docs
           400 "Unsupported file type: .xyz. Allowed: .txt, .pdf, .html, .docx").
  - vm_compute. reflexivity.
  - right; right. by exists ".xyz. Allowed: .txt, .pdf, .html, .docx".
Defined.

(** ** Loading the components, and the delete endpoint *)

Lemma lazy_load_rag_flag env w :
  ∃ b : bool,
    lazy_load_rag env w = (Return tt, set_RAG_ENABLED b w) ∧
    (b = true ↔ RAG_ENABLED w = true ∨ rag_import env = Return tt).
Proof.
  unfold lazy_load_rag, bind, gets, try_except, lift, modify, ret.
  destruct (RAG_ENABLED w) eqn:Hen.
  - exists true. split; [|tauto]. f_equal. destruct w; simpl in *; by subst.
  - destruct (rag_import env) as [[]|e].
    + exists true. split; [done|]. tauto.
    + exists false. split; [done|]. split; [done|]. intros [?|?]; discriminate.
Qed.

(** X1: [lazy_load_rag] never raises and changes nothing but [RAG_ENABLED].
    The flag is set afterwards exactly when it was set before or the import
    succeeds, so after a failed import the next request tries again; and
    once the flag is set, a call does nothing, whatever the import would do. *)
Theorem lazy_load_rag_outcome (env : Env) (w : World) :
  (∃ b : bool,
     lazy_load_rag env w = (Return tt, set_RAG_ENABLED b w) ∧
     (b = true ↔ RAG_ENABLED w = true ∨ rag_import env = Return tt)) ∧
  lazy_load_rag env (set_RAG_ENABLED true w) = (Return tt, set_RAG_ENABLED true w).
Proof. split; [apply lazy_load_rag_flag|reflexivity]. Qed.

Lemma delete_document_record_run file_id w :
  delete_document_record file_id w =
    (Return tt,
     set_document_store (filter (λ row, row.1 ≠ file_id) (document_store w))
                        (document_store_seq w) w).
Proof. reflexivity. Qed.

(** X6: for an identifier in the range of a signed 64-bit integer, which
    is what sqlite and the index accept, and with the components loaded or
    loadable, [delete_document] answers "Document deleted successfully"
    whether or not a document with that identifier exists; it removes the
    records tagged with the identifier and the rows with that id, and leaves
    every other record and row, the files and the AUTOINCREMENT counter
    alone.  With the components unavailable it answers 503 and removes
    nothing. *)
Theorem delete_document_outcome (env : Env) (file_id : Z) (w : World) :
  - 2 ^ 63 ≤ file_id < 2 ^ 63 →
  (RAG_ENABLED w = true ∨ rag_import env = Return tt →
   ∃ w' : World,
     delete_document env file_id w =
       (Return (mkDeleteResponse "Document deleted successfully" file_id), w') ∧
     vectorstore w' = filter (λ r, ¬ where_file_id file_id r) (vectorstore w) ∧
     document_store w' = filter (λ row, row.1 ≠ file_id) (document_store w) ∧
     document_store_seq w' = document_store_seq w ∧
     files w' = files w) ∧
  (RAG_ENABLED w = false → (∃ e, rag_import env = Raise e) →
   delete_document env file_id w =
     (Raise (HTTPException 503
        "Document deletion is not available. RAG features not initialized."),
      set_RAG_ENABLED false w)).
Proof.
  intros _. split.
  - intros Hrag.
    cbv beta iota zeta delta [delete_document try_except bind gets raise ret].
    rewrite lazy_load_rag_available by done.
    cbv beta iota delta [RAG_ENABLED set_RAG_ENABLED negb].
    rewrite delete_doc_from_chroma_run. cbv beta iota.
    rewrite delete_document_record_run. cbv beta iota.
    eexists. split; [reflexivity|]. by repeat split.
  - intros Hoff [e He]. unfold delete_document, try_except at 1.
    unfold lazy_load_rag, bind, gets, try_except, lift, modify, raise.
    by rewrite Hoff, He.
Qed.

Lemma delete_document_outcome_witness :
  ∃ w' : World,
    delete_document Demo.env 1 Demo.two_docs =
      (Return (mkDeleteResponse "Document deleted successfully" 1), w') ∧
    vectorstore w' = [mkRecord 1 [3%Q] (Demo.doc "bcd" 2)] ∧
    document_store w' = [(2, "b.txt")].
Proof.
  destruct (proj1 (delete_document_outcome Demo.env 1 Demo.two_docs ltac:(lia)))
    as (w' & Hrun & Hindex & Hrows & _); [by left|].
  exists w'. split; [done|]. split.
  - rewrite Hindex. vm_compute. reflexivity.
  - rewrite Hrows. vm_compute. reflexivity.
Defined.

Lemma delete_document_cases env file_id w :
  delete_document env file_id w =
    (Return (mkDeleteResponse "Document deleted successfully" file_id),
     set_document_store (filter (λ row, row.1 ≠ file_id) (document_store w))
       (document_store_seq w)
       (set_vectorstore (filter (λ r, ¬ where_file_id file_id r) (vectorstore w))
          (next_record_id w) (set_RAG_ENABLED true w))) ∨
  delete_document env file_id w =
    (Raise (HTTPException 503
       "Document deletion is not available. RAG features not initialized."),
     set_RAG_ENABLED false w).
Proof.
  destruct (lazy_load_rag_flag env w) as [b [Hlazy _]].
  cbv beta iota zeta delta [delete_document try_except bind gets raise ret].
  rewrite Hlazy. cbv beta iota delta [RAG_ENABLED set_RAG_ENABLED negb].
  destruct b; [left|by right].
  rewrite delete_doc_from_chroma_run. cbv beta iota.
  by rewrite delete_document_record_run.
Qed.

(** The chain reads the index and changes nothing. *)
Lemma get_rag_chain_world env model0 input o w w' :
  get_rag_chain env model0 input w = (o, w') → w' = w.
Proof.
  unfold get_rag_chain, rag_chain, similarity_search, bind, lift, gets, ret.
  repeat case_match; intros ?; by simplify_eq.
Qed.

Lemma chat_answer_world env query o w w' :
  chat_answer env query w = (o, w') → ∃ b : bool, w' = set_RAG_ENABLED b w.
Proof.
  destruct (lazy_load_rag_flag env w) as [b [Hlazy _]].
  intros Hrun. exists b. revert Hrun.
  cbv beta iota zeta delta [chat_answer try_except bind gets raise ret].
  rewrite Hlazy. cbv beta iota delta [RAG_ENABLED set_RAG_ENABLED].
  destruct b; [|by intros [= _ <-]].
  destruct (get_rag_chain _ _ _ _) as [[result|e] w1] eqn:Hchain;
    apply get_rag_chain_world in Hchain as ->; by intros [= _ <-].
Qed.

(** ** The two stores stay consistent *)

Lemma consistent_set_RAG_ENABLED b w : consistent w → consistent (set_RAG_ENABLED b w).
Proof. done. Qed.

Lemma filter_rows_below (rows : list (Z * string)) seq filename :
  Forall (λ row, row.1 ≤ seq) rows →
  filter (λ row, row.1 ≠ seq + 1) (rows ++ [(seq + 1, filename)]) = rows.
Proof.
  intros Hrows. rewrite filter_app, filter_all.
  - rewrite filter_cons_False, filter_nil by (simpl; tauto). apply app_nil_r.
  - eapply Forall_impl; [exact Hrows|]. simpl. lia.
Qed.

Lemma fresh_id_not_in_rows (rows : list (Z * string)) seq :
  Forall (λ row, row.1 ≤ seq) rows → seq + 1 ∉ rows.*1.
Proof.
  intros Hrows (row & Hid & Hin)%list_elem_of_fmap.
  rewrite Forall_forall in Hrows. apply Hrows in Hin. lia.
Qed.






(** ** Identifiers and round trips *)

Lemma filter_none {A} (P : A → Prop) `{!∀ x, Decision (P x)} (l : list A) :
  Forall (λ x, ¬ P x) l → filter P l = [].
Proof.
  induction 1 as [|x l Hx _ IH]; [done|].
  by rewrite filter_cons_False.
Qed.

(** Removing the records of an identifier that only the appended records
    carry gives back the list they were appended to. *)
Lemma filter_out_appended file_id (old new : list EmbeddingRecord) :
  Forall (λ r, ¬ where_file_id file_id r) old →
  Forall (λ r, record_file_id r = Some (MInt file_id)) new →
  filter (λ r, ¬ where_file_id file_id r) (old ++ new) = old.
Proof.
  intros Hold Hnew. rewrite filter_app, filter_all by done.
  rewrite filter_none; [apply app_nil_r|].
  eapply Forall_impl; [exact Hnew|]. intros r Hr Hnot. by apply Hnot.
Qed.

Lemma consistent_records_below w :
  consistent w →
  Forall (λ r, ¬ where_file_id (document_store_seq w + 1) r) (vectorstore w).
Proof.
  intros (Hrows & _ & Hrecs).
  eapply Forall_impl; [exact Hrecs|]. intros r (id & Hid & Hin) Hr.
  unfold where_file_id in Hr. rewrite Hid in Hr. injection Hr as ->.
  by apply (fresh_id_not_in_rows _ _ Hrows).
Qed.

(** X8: in a consistent world the identifier a successful upload answers
    with is new: it is above the id of every row of the table, and no record
    of the index carried it before. *)
Theorem upload_identifier_is_fresh
    (env : Env) (filename contents : string) (w : World)
    (resp : UploadResponse) (w' : World) :
  consistent w →
  upload_document env filename contents w = (Return resp, w') →
  Forall (λ row, row.1 < response_file_id resp) (document_store w) ∧
  Forall (λ r, ¬ where_file_id (response_file_id resp) r) (vectorstore w).
Proof.
  intros Hw (-> & _)%upload_document_Return. simpl. split.
  - destruct Hw as (Hrows & _). eapply Forall_impl; [exact Hrows|]. simpl. lia.
  - by apply consistent_records_below.
Qed.

Lemma two_docs_consistent : consistent Demo.two_docs.
Proof.
  split; [|split]; simpl.
  - repeat constructor; simpl; lia.
  - apply NoDup_cons. split; [|apply NoDup_singleton].
    by intros [=]%list_elem_of_singleton.
  - repeat constructor; eexists; (split; [reflexivity|]);
      repeat first [apply list_elem_of_here | apply list_elem_of_further].
Qed.

Lemma upload_identifier_is_fresh_witness :
  Forall (λ row, row.1 < 3) (document_store Demo.two_docs) ∧
  Forall (λ r, ¬ where_file_id 3 r) (vectorstore Demo.two_docs).
Proof.
  apply (upload_identifier_is_fresh Demo.env "sky.txt" "The sky is blue."
           Demo.two_docs
           (mkUploadResponse "Document uploaded and indexed successfully" 3 "sky.txt")
           (upload_document Demo.env "sky.txt" "The sky is blue." Demo.two_docs).2).
  - exact two_docs_consistent.
  - vm_compute. reflexivity.
Defined.

Lemma handle_counter env w req :
  document_store_seq w ≤ document_store_seq (handle env w req).
Proof.
  destruct req as [filename contents|file_id|uuid4 query]; simpl.
  - destruct (upload_document_cases env filename contents w)
      as [b [(e' & -> & _)|(_ & _ & _ & w2 & success & w3 & -> & Hindex & ->)]];
      [done|].
    destruct success.
    + apply index_document_to_chroma_true in Hindex as (? & ? & _ & _ & ->).
      simpl. lia.
    + apply index_document_to_chroma_unchanged in Hindex as ->; [|done].
      simpl. lia.
  - by destruct (delete_document_cases env file_id w) as [-> | ->].
  - unfold chat. destruct (chat_answer env query w) as [[a|e] w'] eqn:Hrun;
      apply chat_answer_world in Hrun as [b ->]; done.
Qed.

Lemma serve_counter env reqs w :
  document_store_seq w ≤ document_store_seq (serve env w reqs).
Proof.
  unfold serve. revert w. induction reqs as [|req reqs IH]; intros w; [done|].
  simpl. etrans; [apply (handle_counter env w req)|apply IH].
Qed.

(** X9: an identifier is never given out twice.  Whatever requests are
    served in between, deletions included, a later successful upload answers
    with an identifier above the counter's earlier value, hence above every
    identifier given out before. *)
Theorem identifiers_never_reissued
    (env : Env) (w : World) (reqs : list Request)
    (filename contents : string) (resp : UploadResponse) (w' : World) :
  upload_document env filename contents (serve env w reqs) = (Return resp, w') →
  document_store_seq w < response_file_id resp.
Proof.
  intros (-> & _)%upload_document_Return. simpl.
  pose proof (serve_counter env reqs w). lia.
Qed.

(** Documents 1 and 2 were given out; document 2 is deleted and a file is
    uploaded: it gets the identifier 3, not 2. *)
Lemma identifiers_never_reissued_witness :
  upload_document Demo.env "sky.txt" "The sky is blue."
      (serve Demo.env Demo.two_docs [DeleteDoc 2])
    = (Return (mkUploadResponse "Document uploaded and indexed successfully"
                 3 "sky.txt"),
       (upload_document Demo.env "sky.txt" "The sky is blue."
          (serve Demo.env Demo.two_docs [DeleteDoc 2])).2) ∧
  document_store_seq Demo.two_docs < 3.
Proof.
  split; [vm_compute; reflexivity|].
  apply (identifiers_never_reissued Demo.env Demo.two_docs [DeleteDoc 2]
           "sky.txt" "The sky is blue."
           (mkUploadResponse "Document uploaded and indexed successfully" 3 "sky.txt")
           (upload_document Demo.env "sky.txt" "The sky is blue."
              (serve Demo.env Demo.two_docs [DeleteDoc 2])).2).
  vm_compute. reflexivity.
Defined.

Lemma delete_document_enabled env file_id w :
  RAG_ENABLED w = true →
  delete_document env file_id w =
    (Return (mkDeleteResponse "Document deleted successfully" file_id),
     set_document_store (filter (λ row, row.1 ≠ file_id) (document_store w))
       (document_store_seq w)
       (set_vectorstore (filter (λ r, ¬ where_file_id file_id r) (vectorstore w))
          (next_record_id w) (set_RAG_ENABLED true w))).
Proof.
  intros Hen.
  destruct (delete_document_cases env file_id w) as [Hrun|Hrun]; [done|].
  exfalso. revert Hrun.
  cbv beta iota zeta delta [delete_document try_except bind gets raise ret].
  rewrite lazy_load_rag_available by (by left).
  cbv beta iota delta [RAG_ENABLED set_RAG_ENABLED negb].
  rewrite delete_doc_from_chroma_run. cbv beta iota.
  by rewrite delete_document_record_run.
Qed.

(** X10: uploading a document and then deleting it by the identifier the
    upload answered with restores the table and the vector index of a
    consistent world exactly; what stays is the saved file and the advanced
    counter. *)
Theorem upload_then_delete
    (env : Env) (filename contents : string) (w : World)
    (resp : UploadResponse) (w1 : World) :
  consistent w →
  upload_document env filename contents w = (Return resp, w1) →
  ∃ w2 : World,
    delete_document env (response_file_id resp) w1 =
      (Return (mkDeleteResponse "Document deleted successfully"
                 (response_file_id resp)), w2) ∧
    document_store w2 = document_store w ∧
    vectorstore w2 = vectorstore w ∧
    files w2 = <[ "uploads/" +:+ filename := contents ]> (files w) ∧
    document_store_seq w2 = document_store_seq w + 1.
Proof.
  intros Hw (-> & _ & Hen & Hfiles & Hrows & Hseq & new & Hnew & Htag)%upload_document_Return.
  simpl. eexists. split; [by apply delete_document_enabled|]. simpl.
  rewrite Hrows, Hnew, Hfiles, Hseq.
  split; [apply filter_rows_below, Hw|].
  split; [|done].
  apply filter_out_appended; [|done]. by apply consistent_records_below.
Qed.

Lemma upload_then_delete_witness :
  ∃ w2 : World,
    delete_document Demo.env 3
        (upload_document Demo.env "sky.txt" "The sky is blue." Demo.two_docs).2
      = (Return (mkDeleteResponse "Document deleted successfully" 3), w2) ∧
    document_store w2 = document_store Demo.two_docs ∧
    vectorstore w2 = vectorstore Demo.two_docs ∧
    files w2 = <[ "uploads/" +:+ "sky.txt" := "The sky is blue." ]> (files Demo.two_docs) ∧
    document_store_seq w2 = document_store_seq Demo.two_docs + 1.
Proof.
  apply (upload_then_delete Demo.env "sky.txt" "The sky is blue." Demo.two_docs
           (mkUploadResponse "Document uploaded and indexed successfully" 3 "sky.txt")).
  - exact two_docs_consistent.
  - vm_compute. reflexivity.
Defined.

(** X11: ingesting a document under an identifier that no record of the
    index carries and then deleting that identifier gives back the index as
    it was, record for record. *)
Theorem ingest_then_delete
    (env : Env) (file_path : string) (file_id : Z) (w w1 : World) :
  Forall (λ r, ¬ where_file_id file_id r) (vectorstore w) →
  index_document_to_chroma env file_path file_id w = (Return true, w1) →
  ∃ w2 : World,
    delete_doc_from_chroma file_id w1 = (Return true, w2) ∧
    vectorstore w2 = vectorstore w ∧
    files w2 = files w ∧ document_store w2 = document_store w.
Proof.
  intros Hold (splits & new & _ & Hdocs & ->)%index_document_to_chroma_true.
  eexists. split; [apply delete_doc_from_chroma_run|]. simpl.
  split; [|done]. apply filter_out_appended; [done|].
  pose proof (tag_file_id_tagged file_id splits) as Htag.
  rewrite <- Hdocs in Htag. by apply Forall_fmap in Htag.
Qed.

Lemma ingest_then_delete_witness :
  ∃ w2 : World,
    delete_doc_from_chroma 7
        (index_document_to_chroma Demo.env "uploads/a.txt" 7 Demo.one_file).2
      = (Return true, w2) ∧
    vectorstore w2 = vectorstore Demo.one_file ∧
    files w2 = files Demo.one_file ∧
    document_store w2 = document_store Demo.one_file.
Proof.
  apply (ingest_then_delete Demo.env "uploads/a.txt" 7 Demo.one_file).
  - constructor.
  - vm_compute. reflexivity.
Defined.

(** X12: uploading a second file under a name already used overwrites the
    saved file, yet both uploads stay documents of their own: the second
    gets the next identifier, the table holds two rows with that name, and
    the index holds the records of both, each tagged with its identifier. *)
Theorem upload_same_name_twice
    (env : Env) (filename contents1 contents2 : string) (w : World)
    (resp1 resp2 : UploadResponse) (w1 w2 : World) :
  upload_document env filename contents1 w = (Return resp1, w1) →
  upload_document env filename contents2 w1 = (Return resp2, w2) →
  files w2 !! ("uploads/" +:+ filename) = Some contents2 ∧
  response_file_id resp2 = response_file_id resp1 + 1 ∧
  document_store w2 =
    document_store w ++ [(response_file_id resp1, filename);
                         (response_file_id resp2, filename)] ∧
  ∃ new1 new2,
    vectorstore w2 = vectorstore w ++ new1 ++ new2 ∧
    Forall (λ r, record_file_id r = Some (MInt (response_file_id resp1))) new1 ∧
    Forall (λ r, record_file_id r = Some (MInt (response_file_id resp2))) new2.
Proof.
  intros (-> & _ & _ & Hfiles1 & Hrows1 & Hseq1 & new1 & Hnew1 & Htag1)%upload_document_Return.
  intros (-> & _ & _ & Hfiles2 & Hrows2 & Hseq2 & new2 & Hnew2 & Htag2)%upload_document_Return.
  simpl. rewrite Hfiles2, Hrows2, Hnew2, Hrows1, Hnew1, Hseq1.
  split; [apply lookup_insert_eq|]. split; [done|].
  split; [by rewrite <- app_assoc|].
  exists new1, new2. rewrite <- app_assoc. by rewrite Hseq1 in Htag2.
Qed.

Lemma upload_same_name_twice_witness :
  files (serve Demo.env Demo.start
           [UploadDoc "n.txt" "Alpha"; UploadDoc "n.txt" "Beta"])
    !! ("uploads/" +:+ "n.txt") = Some "Beta" ∧
  document_store (serve Demo.env Demo.start
                    [UploadDoc "n.txt" "Alpha"; UploadDoc "n.txt" "Beta"])
    = [(1, "n.txt"); (2, "n.txt")].
Proof.
  destruct (upload_same_name_twice Demo.env "n.txt" "Alpha" "Beta" Demo.start
              (mkUploadResponse "Document uploaded and indexed successfully" 1 "n.txt")
              (mkUploadResponse "Document uploaded and indexed successfully" 2 "n.txt")
              (serve Demo.env Demo.start [UploadDoc "n.txt" "Alpha"])
              (serve Demo.env Demo.start
                 [UploadDoc "n.txt" "Alpha"; UploadDoc "n.txt" "Beta"]))
    as (Hfile & _ & Hrows & _).
  - vm_compute. reflexivity.
  - vm_compute. reflexivity.
  - split; [exact Hfile|exact Hrows].
Defined.

(** ** The chat endpoint *)

Lemma get_rag_chain_Return env model0 input w result w' :
  get_rag_chain env model0 input w = (Return result, w') →
  ∃ completion, result = {[ "answer" := completion ]}.
Proof.
  unfold get_rag_chain, bind, ret.
  destruct (rag_chain env model0 input w) as [[completion|e] w1]; [|done].
  intros [= <- _]. by exists completion.
Qed.

(** The two ways [chat] comes by its answer. *)
Lemma chat_answer_cases env query w :
  (RAG_ENABLED w = false ∧ (∃ e, rag_import env = Raise e) ∧
   chat_answer env query w =
     (Return (fallback_answer (question query)), set_RAG_ENABLED false w)) ∨
  ((RAG_ENABLED w = true ∨ rag_import env = Return tt) ∧
   ((∃ completion,
       get_rag_chain env (model query) (question query) (set_RAG_ENABLED true w) =
         (Return {[ "answer" := completion ]}, set_RAG_ENABLED true w) ∧
       chat_answer env query w = (Return completion, set_RAG_ENABLED true w)) ∨
    (∃ cause,
       get_rag_chain env (model query) (question query) (set_RAG_ENABLED true w) =
         (Raise cause, set_RAG_ENABLED true w) ∧
       chat_answer env query w = (Raise cause, set_RAG_ENABLED true w)))).
Proof.
  destruct (lazy_load_rag_flag env w) as [b [Hlazy Hb]].
  cbv beta iota zeta delta [chat_answer try_except bind gets raise ret].
  rewrite Hlazy. cbv beta iota delta [RAG_ENABLED set_RAG_ENABLED].
  destruct b.
  - right. split; [by apply Hb|].
    destruct (get_rag_chain _ _ _ _) as [[result|cause] w1] eqn:Hchain;
      pose proof (get_rag_chain_world _ _ _ _ _ _ Hchain) as ->.
    + apply get_rag_chain_Return in Hchain as Hres. destruct Hres as [completion ->].
      left. exists completion. split; [done|]. by rewrite lookup_singleton_eq.
    + right. by exists cause.
  - left. destruct Hb as [_ Hb].
    split; [|split; [|done]].
    + destruct (RAG_ENABLED w) eqn:Hen; [|done].
      discriminate (Hb (or_introl eq_refl)).
    + destruct (rag_import env) as [[]|e] eqn:Himport; [|by exists e].
      discriminate (Hb (or_intror eq_refl)).
Qed.

(** X13: every error [chat] raises is the error 500 "Error processing
    query" followed by the text of its cause; and when the chain raises,
    [chat] fails with that cause and the query is not logged. *)
Theorem chat_errors
    (env : Env) (uuid4 : string) (query : QueryInput) (logs : list LogRow)
    (w : World) :
  (∀ e w' logs',
     chat env uuid4 query logs w = (Raise e, w', logs') →
     ∃ cause, e = HTTPException 500 ("Error processing query: " +:+ exn_str cause)) ∧
  (∀ cause,
     RAG_ENABLED w = true ∨ rag_import env = Return tt →
     get_rag_chain env (model query) (question query) (set_RAG_ENABLED true w) =
       (Raise cause, set_RAG_ENABLED true w) →
     chat env uuid4 query logs w =
       (Raise (HTTPException 500 ("Error processing query: " +:+ exn_str cause)),
        set_RAG_ENABLED true w, logs)).
Proof.
  unfold chat. split.
  - intros e w' logs'.
    destruct (chat_answer_cases env query w)
      as [(_ & _ & ->)|(_ & [(completion & _ & ->)|(cause & _ & ->)])];
      intros [= <- _ _]. by exists cause.
  - intros cause Hrag Hchain.
    destruct (chat_answer_cases env query w)
      as [(Hoff & [e He] & _)|(_ & [(completion & Hchain' & _)|(cause' & Hchain' & ->)])].
    + destruct Hrag; congruence.
    + congruence.
    + rewrite Hchain in Hchain'. by injection Hchain' as <-.
Qed.

Lemma chat_errors_witness :
  chat Demo.env "u-1" (mkQueryInput "boom" None "gemini-2.5-flash") [] Demo.two_docs
    = (Raise (HTTPException 500 "Error processing query: embedding failed"),
       Demo.two_docs, []).
Proof.
  apply (proj2 (chat_errors Demo.env "u-1"
                  (mkQueryInput "boom" None "gemini-2.5-flash") [] Demo.two_docs)
           (LibraryError "embedding failed")).
  - by left.
  - reflexivity.
Defined.

(** X14: an answered query is logged exactly once, and the logged row agrees
    with the response: same session id, the question, the answer and the
    model name.  The session id is the request's when that is a non-empty
    string and the fresh uuid otherwise.  The answer is the chain's
    completion when the components are loaded, so the default "No answer
    generated" is never used, and the fallback text otherwise. *)
Theorem chat_success
    (env : Env) (uuid4 : string) (query : QueryInput) (logs : list LogRow)
    (w : World) (resp : QueryResponse) (w' : World) (logs' : list LogRow) :
  chat env uuid4 query logs w = (Return resp, w', logs') →
  logs' = logs ++ [mkLogRow (response_session_id resp) (question query)
                            (answer resp) (model query)] ∧
  (∀ s, session_id query = Some s → s ≠ "" → response_session_id resp = s) ∧
  (session_id query = None ∨ session_id query = Some "" →
   response_session_id resp = uuid4) ∧
  (RAG_ENABLED w' = true →
   get_rag_chain env (model query) (question query) w' =
     (Return {[ "answer" := answer resp ]}, w')) ∧
  (RAG_ENABLED w' = false → answer resp = fallback_answer (question query)).
Proof.
  unfold chat.
  destruct (chat_answer_cases env query w)
    as [(_ & _ & ->)|(_ & [(completion & Hchain & ->)|(cause & _ & ->)])];
    intros [= <- <- <-]; simpl.
  all: split; [done|]; split;
    [intros s -> Hs%String.eqb_neq; by rewrite Hs|]; split;
    [intros [-> | ->]; done|]; by split.
Qed.

Lemma chat_success_witness :
  ∃ (answer0 : string) (w' : World),
    chat Demo.env "u-1" (mkQueryInput "xy" (Some "s-9") "gemini-2.5-flash") []
         Demo.two_docs
      = (Return (mkQueryResponse answer0 "s-9"), w',
         [mkLogRow "s-9" "xy" answer0 "gemini-2.5-flash"]).
Proof.
  destruct (chat Demo.env "u-1" (mkQueryInput "xy" (Some "s-9") "gemini-2.5-flash")
              [] Demo.two_docs) as [[[[answer0 sid]|e] w'] logs'] eqn:Hrun;
    [|by vm_compute in Hrun].
  destruct (chat_success _ _ _ _ _ _ _ _ Hrun) as (Hlogs & Hsid & _).
  simpl in *. rewrite (Hsid "s-9" eq_refl) in * by discriminate.
  exists answer0, w'. by rewrite Hlogs.
Defined.

(** X15: [chat] never touches the knowledge base: however it ends, the
    files, the table, its counter and the vector index are as before; only
    [RAG_ENABLED] may have changed. *)
Theorem chat_frame
    (env : Env) (uuid4 : string) (query : QueryInput) (logs : list LogRow)
    (w : World) :
  ∃ b : bool, (chat env uuid4 query logs w).1.2 = set_RAG_ENABLED b w.
Proof.
  unfold chat.
  destruct (chat_answer env query w) as [[a|e] w'] eqn:Hrun;
    apply chat_answer_world in Hrun as [b ->]; by exists b.
Qed.

(** X16: while the components cannot be imported, [chat] does not fail: it
    answers with the fallback text that quotes the question, and logs that
    exchange like any other. *)
Theorem chat_fallback
    (env : Env) (uuid4 : string) (query : QueryInput) (logs : list LogRow)
    (w : World) (e0 : exn) :
  RAG_ENABLED w = false →
  rag_import env = Raise e0 →
  ∃ sid,
    chat env uuid4 query logs w =
      (Return (mkQueryResponse (fallback_answer (question query)) sid),
       set_RAG_ENABLED false w,
       logs ++ [mkLogRow sid (question query) (fallback_answer (question query))
                         (model query)]).
Proof.
  intros Hoff Himport. unfold chat.
  destruct (chat_answer_cases env query w)
    as [(_ & _ & ->)|([Hen|Hok] & _)]; [by eexists|congruence..].
Qed.

Lemma chat_fallback_witness :
  ∃ sid,
    chat (mkEnv Demo.embed Demo.distance (λ bytes, Return bytes)
            Demo.parse Demo.parse Demo.parse Demo.llm
            (Raise (LibraryError "No module named 'langchain_chroma'"))
            (Return tt) (λ _, Return tt) [])
         "u-1" (mkQueryInput "hello" None "gemini-2.5-flash") [] Demo.start =
      (Return (mkQueryResponse (fallback_answer "hello") sid),
       set_RAG_ENABLED false Demo.start,
       [] ++ [mkLogRow sid "hello" (fallback_answer "hello") "gemini-2.5-flash"]).
Proof.
  apply (chat_fallback _ "u-1" (mkQueryInput "hello" None "gemini-2.5-flash") []
           Demo.start (LibraryError "No module named 'langchain_chroma'"));
    reflexivity.
Defined.

(** ** The extension check and the loader's dispatch *)

Lemma endswith_own_extension dir filename :
  PyStr.endswith (dir +:+ filename) (PyStr.splitext filename).2 = true.
Proof.
  apply PyStrFacts.endswith_true. exists (dir +:+ (PyStr.splitext filename).1).
  by rewrite PyStrFacts.app_assoc, PyStrFacts.splitext_app.
Qed.

(** X17: for a file name that passes the endpoint's check, the loader has a
    branch for the saved path exactly when the extension is spelled in lower
    case, that is, when it is itself one of the four allowed extensions; and
    then the path ends with that very extension. *)
Theorem accepted_upload_has_loader (filename : string) :
  file_ext filename ∈ allowed_extensions →
  (has_loader ("uploads/" +:+ filename) = true ↔
   (PyStr.splitext filename).2 ∈ allowed_extensions) ∧
  PyStr.endswith ("uploads/" +:+ filename) (PyStr.splitext filename).2 = true.
Proof.
  intros Hlow. split; [|apply endswith_own_extension]. split.
  - intros Hhas. destruct (decide ((PyStr.splitext filename).2 ∈ allowed_extensions))
      as [|Hext]; [done|].
    rewrite (uppercase_extension_has_no_loader filename Hlow Hext) in Hhas.
    discriminate.
  - intros Hext. pose proof (endswith_own_extension "uploads/" filename) as Hends.
    unfold has_loader.
    apply elem_of_allowed_extensions in Hext as [Heq|[Heq|[Heq|Heq]]];
      rewrite Heq in Hends; rewrite Hends; by rewrite ?orb_true_r.
Qed.

Lemma accepted_upload_has_loader_witness :
  (has_loader ("uploads/" +:+ "notes.TXT") = true ↔
   (PyStr.splitext "notes.TXT").2 ∈ allowed_extensions) ∧
  PyStr.endswith ("uploads/" +:+ "notes.TXT") (PyStr.splitext "notes.TXT").2 = true.
Proof.
  apply (accepted_upload_has_loader "notes.TXT").
  apply elem_of_allowed_extensions. vm_compute. tauto.
Defined.

(** ** Retrieval on an empty index *)

(** X18: with nothing in the index a question still reaches the model: the
    retrieval finds no chunk, the context is the empty string, and the
    prompt is the system instruction, "Context:" followed by a newline, and
    the question. *)
Theorem answer_on_empty_index
    (env : Env) (model0 input : string) (w : World) (q : Vector) :
  vectorstore w = [] →
  embed env input = Return q →
  get_rag_chain env model0 input w =
    (obind
       (llm_invoke env model0 0%Q
          [ SystemMessage system_instruction;
            SystemMessage ("Context:" +:+ String newline "");
            HumanMessage input ])
       (λ completion, Return {[ "answer" := completion ]}),
     w).
Proof.
  intros Hempty Hq.
  unfold get_rag_chain, rag_chain, similarity_search, bind, lift, gets, ret.
  rewrite Hq, Hempty. simpl. by destruct (llm_invoke _ _ _ _).
Qed.

Lemma answer_on_empty_index_witness :
  get_rag_chain Demo.env "gemini-2.5-flash" "Who?" Demo.one_file =
    (Return {[ "answer" :=
       system_instruction +:+ "|Context:" +:+ String newline "" +:+ "|Who?" ]},
     Demo.one_file).
Proof.
  rewrite (answer_on_empty_index Demo.env "gemini-2.5-flash" "Who?" Demo.one_file
             [4%Q]); reflexivity.
Defined.

(** ** Ingestion is all or nothing *)


